(** * Realtime chat client: session negotiation, event dispatch, recording

    A shallow embedding of [src/app/page.tsx] (the [RealTimePage] component)
    and the properties of its handlers.

    The component keeps its data in React state cells and refs.  Here the
    cells and refs are the fields of one record, [State], and every handler
    is a computation in a small state-and-exception monad [M]: a JavaScript
    [throw] keeps the mutations made before it, so a thrown computation still
    carries a state.  Calls that leave the component (console, [fetch],
    [getUserMedia], [RTCDataChannel.send]) are recorded, in order, in the
    [trace] field.  What the platform answers (HTTP responses, the microphone
    prompt, the SDP calls, the JSON parser) is an explicit argument of the
    handler that asks for it. *)

From Stdlib Require Import String Ascii List Bool Arith NArith ZArith Lia.
Import ListNotations.
Local Open Scope string_scope.
Local Open Scope list_scope.

(** ** Inbound events: [interface RealtimeEvent] *)

(** Entries of [content].  [transcript], [text] and [audio_url] are optional
    in the interface. *)
Record ContentPart := {
  content_type : string;
  transcript : option string;
  text : option string;
  audio_url : option string
}.

(** Entries of [response.output].  The handler tests [item.content] before it
    iterates, so the field is optional here. *)
Record OutputItem := {
  item_id : string;
  item_object : string;
  item_type : string;
  item_status : string;
  item_role : string;
  content : option (list ContentPart)
}.

(** [response].  The handler tests [event.response.output], so the field is
    optional here.  The fields typed [any] are never read and are left out. *)
Record Response := {
  response_object : string;
  response_id : string;
  response_status : string;
  output : option (list OutputItem)
}.

Record RealtimeEvent := {
  ev_type : string;
  event_id : option string;
  response : option Response
}.

(** ** Platform objects *)

(** A [Blob]: its bytes (each below 256) and its MIME type. *)
Record Blob := {
  blob_bytes : list N;
  blob_type : string
}.

Definition blob_size (b : Blob) : nat := List.length (blob_bytes b).

(** [new Blob(parts, { type })] concatenates the parts. *)
Definition new_Blob (parts : list Blob) (ty : string) : Blob :=
  {| blob_bytes := concat (map blob_bytes parts); blob_type := ty |}.

(** A [MediaStream], named by the number the platform gave it. *)
Record MediaStream := { stream_id : nat }.

Inductive RecordingState := inactive | recording.

(** A [MediaRecorder] with the handlers [startRecording] installs on it.
    [ondataavailable] only calls the state setter and captures nothing.
    [onstop] reads the variable [audioChunks] of the render in which
    [startRecording] was created: [onstop_audioChunks] is that captured
    value. *)
Record MediaRecorder := {
  recorder_stream : MediaStream;
  recorder_state : RecordingState;
  onstop_audioChunks : list Blob
}.

Inductive ReadyState := connecting | open | closing | closed.

Record RTCDataChannel := {
  dc_label : string;
  dc_readyState : ReadyState
}.

Record RTCPeerConnection := {
  pc_senders : list MediaStream;
  pc_localDescription : option string;
  pc_remoteDescription : option string
}.

Record HTMLAudioElement := {
  autoplay : bool;
  srcObject : option MediaStream
}.

(** The object handed to [JSON.stringify] before [dc.send]. *)
Inductive Outbound :=
| OutAudio (data : string)      (* { type: "audio", data } *)
| OutMessage (text : string).   (* { type: "message", data: { text } } *)

(** Calls that leave the component.  Console entries keep the first
    argument. *)
Inductive Effect :=
| ConsoleLog (msg : string)
| ConsoleError (msg : string)
| Fetch (url : string) (authorization : option string)
| GetUserMedia
| DcSend (m : Outbound).

Inductive Exn :=
| Error (msg : string)
| TypeError
| SyntaxError
| InvalidStateError
| Rejected (what : string).

(** ** Component state *)

Record State := {
  pcRef : option RTCPeerConnection;
  dcRef : option RTCDataChannel;
  audioElRef : option HTMLAudioElement;
  remoteStream : option MediaStream;
  isInitialized : bool;
  isRecording : bool;
  aiMessages : list string;
  userMessages : list string;
  mediaRecorder : option MediaRecorder;
  audioChunks : list Blob;
  isProcessing : bool;
  isAISpeaking : bool;
  aiTranscript : option string;
  error : option string;
  trace : list Effect
}.

(** The values given to [useRef] and [useState]. *)
Definition initial_state : State := {|
  pcRef := None;
  dcRef := None;
  audioElRef := None;
  remoteStream := None;
  isInitialized := false;
  isRecording := false;
  aiMessages := [];
  userMessages := [];
  mediaRecorder := None;
  audioChunks := [];
  isProcessing := false;
  isAISpeaking := false;
  aiTranscript := None;
  error := None;
  trace := []
|}.

(** Field updates. *)

Definition set_pcRef (v : option RTCPeerConnection) (s : State) : State :=
  {| pcRef := v; dcRef := dcRef s; audioElRef := audioElRef s;
     remoteStream := remoteStream s; isInitialized := isInitialized s;
     isRecording := isRecording s; aiMessages := aiMessages s;
     userMessages := userMessages s; mediaRecorder := mediaRecorder s;
     audioChunks := audioChunks s; isProcessing := isProcessing s;
     isAISpeaking := isAISpeaking s; aiTranscript := aiTranscript s;
     error := error s; trace := trace s |}.

Definition set_dcRef (v : option RTCDataChannel) (s : State) : State :=
  {| pcRef := pcRef s; dcRef := v; audioElRef := audioElRef s;
     remoteStream := remoteStream s; isInitialized := isInitialized s;
     isRecording := isRecording s; aiMessages := aiMessages s;
     userMessages := userMessages s; mediaRecorder := mediaRecorder s;
     audioChunks := audioChunks s; isProcessing := isProcessing s;
     isAISpeaking := isAISpeaking s; aiTranscript := aiTranscript s;
     error := error s; trace := trace s |}.

Definition set_audioElRef (v : option HTMLAudioElement) (s : State) : State :=
  {| pcRef := pcRef s; dcRef := dcRef s; audioElRef := v;
     remoteStream := remoteStream s; isInitialized := isInitialized s;
     isRecording := isRecording s; aiMessages := aiMessages s;
     userMessages := userMessages s; mediaRecorder := mediaRecorder s;
     audioChunks := audioChunks s; isProcessing := isProcessing s;
     isAISpeaking := isAISpeaking s; aiTranscript := aiTranscript s;
     error := error s; trace := trace s |}.

Definition set_remoteStream (v : option MediaStream) (s : State) : State :=
  {| pcRef := pcRef s; dcRef := dcRef s; audioElRef := audioElRef s;
     remoteStream := v; isInitialized := isInitialized s;
     isRecording := isRecording s; aiMessages := aiMessages s;
     userMessages := userMessages s; mediaRecorder := mediaRecorder s;
     audioChunks := audioChunks s; isProcessing := isProcessing s;
     isAISpeaking := isAISpeaking s; aiTranscript := aiTranscript s;
     error := error s; trace := trace s |}.

Definition set_isInitialized (v : bool) (s : State) : State :=
  {| pcRef := pcRef s; dcRef := dcRef s; audioElRef := audioElRef s;
     remoteStream := remoteStream s; isInitialized := v;
     isRecording := isRecording s; aiMessages := aiMessages s;
     userMessages := userMessages s; mediaRecorder := mediaRecorder s;
     audioChunks := audioChunks s; isProcessing := isProcessing s;
     isAISpeaking := isAISpeaking s; aiTranscript := aiTranscript s;
     error := error s; trace := trace s |}.

Definition set_isRecording (v : bool) (s : State) : State :=
  {| pcRef := pcRef s; dcRef := dcRef s; audioElRef := audioElRef s;
     remoteStream := remoteStream s; isInitialized := isInitialized s;
     isRecording := v; aiMessages := aiMessages s;
     userMessages := userMessages s; mediaRecorder := mediaRecorder s;
     audioChunks := audioChunks s; isProcessing := isProcessing s;
     isAISpeaking := isAISpeaking s; aiTranscript := aiTranscript s;
     error := error s; trace := trace s |}.

Definition set_aiMessages (v : list string) (s : State) : State :=
  {| pcRef := pcRef s; dcRef := dcRef s; audioElRef := audioElRef s;
     remoteStream := remoteStream s; isInitialized := isInitialized s;
     isRecording := isRecording s; aiMessages := v;
     userMessages := userMessages s; mediaRecorder := mediaRecorder s;
     audioChunks := audioChunks s; isProcessing := isProcessing s;
     isAISpeaking := isAISpeaking s; aiTranscript := aiTranscript s;
     error := error s; trace := trace s |}.

Definition set_userMessages (v : list string) (s : State) : State :=
  {| pcRef := pcRef s; dcRef := dcRef s; audioElRef := audioElRef s;
     remoteStream := remoteStream s; isInitialized := isInitialized s;
     isRecording := isRecording s; aiMessages := aiMessages s;
     userMessages := v; mediaRecorder := mediaRecorder s;
     audioChunks := audioChunks s; isProcessing := isProcessing s;
     isAISpeaking := isAISpeaking s; aiTranscript := aiTranscript s;
     error := error s; trace := trace s |}.

Definition set_mediaRecorder (v : option MediaRecorder) (s : State) : State :=
  {| pcRef := pcRef s; dcRef := dcRef s; audioElRef := audioElRef s;
     remoteStream := remoteStream s; isInitialized := isInitialized s;
     isRecording := isRecording s; aiMessages := aiMessages s;
     userMessages := userMessages s; mediaRecorder := v;
     audioChunks := audioChunks s; isProcessing := isProcessing s;
     isAISpeaking := isAISpeaking s; aiTranscript := aiTranscript s;
     error := error s; trace := trace s |}.

Definition set_audioChunks (v : list Blob) (s : State) : State :=
  {| pcRef := pcRef s; dcRef := dcRef s; audioElRef := audioElRef s;
     remoteStream := remoteStream s; isInitialized := isInitialized s;
     isRecording := isRecording s; aiMessages := aiMessages s;
     userMessages := userMessages s; mediaRecorder := mediaRecorder s;
     audioChunks := v; isProcessing := isProcessing s;
     isAISpeaking := isAISpeaking s; aiTranscript := aiTranscript s;
     error := error s; trace := trace s |}.

Definition set_isProcessing (v : bool) (s : State) : State :=
  {| pcRef := pcRef s; dcRef := dcRef s; audioElRef := audioElRef s;
     remoteStream := remoteStream s; isInitialized := isInitialized s;
     isRecording := isRecording s; aiMessages := aiMessages s;
     userMessages := userMessages s; mediaRecorder := mediaRecorder s;
     audioChunks := audioChunks s; isProcessing := v;
     isAISpeaking := isAISpeaking s; aiTranscript := aiTranscript s;
     error := error s; trace := trace s |}.

Definition set_isAISpeaking (v : bool) (s : State) : State :=
  {| pcRef := pcRef s; dcRef := dcRef s; audioElRef := audioElRef s;
     remoteStream := remoteStream s; isInitialized := isInitialized s;
     isRecording := isRecording s; aiMessages := aiMessages s;
     userMessages := userMessages s; mediaRecorder := mediaRecorder s;
     audioChunks := audioChunks s; isProcessing := isProcessing s;
     isAISpeaking := v; aiTranscript := aiTranscript s;
     error := error s; trace := trace s |}.

Definition set_aiTranscript (v : option string) (s : State) : State :=
  {| pcRef := pcRef s; dcRef := dcRef s; audioElRef := audioElRef s;
     remoteStream := remoteStream s; isInitialized := isInitialized s;
     isRecording := isRecording s; aiMessages := aiMessages s;
     userMessages := userMessages s; mediaRecorder := mediaRecorder s;
     audioChunks := audioChunks s; isProcessing := isProcessing s;
     isAISpeaking := isAISpeaking s; aiTranscript := v;
     error := error s; trace := trace s |}.

Definition set_error (v : option string) (s : State) : State :=
  {| pcRef := pcRef s; dcRef := dcRef s; audioElRef := audioElRef s;
     remoteStream := remoteStream s; isInitialized := isInitialized s;
     isRecording := isRecording s; aiMessages := aiMessages s;
     userMessages := userMessages s; mediaRecorder := mediaRecorder s;
     audioChunks := audioChunks s; isProcessing := isProcessing s;
     isAISpeaking := isAISpeaking s; aiTranscript := aiTranscript s;
     error := v; trace := trace s |}.

Definition set_trace (v : list Effect) (s : State) : State :=
  {| pcRef := pcRef s; dcRef := dcRef s; audioElRef := audioElRef s;
     remoteStream := remoteStream s; isInitialized := isInitialized s;
     isRecording := isRecording s; aiMessages := aiMessages s;
     userMessages := userMessages s; mediaRecorder := mediaRecorder s;
     audioChunks := audioChunks s; isProcessing := isProcessing s;
     isAISpeaking := isAISpeaking s; aiTranscript := aiTranscript s;
     error := error s; trace := v |}.

(** ** The monad of handlers *)

Inductive Result (A : Type) :=
| Ok (a : A) (s : State)
| Throw (e : Exn) (s : State).

Arguments Ok {A} a s.
Arguments Throw {A} e s.

Definition M (A : Type) := State -> Result A.

Definition ret {A} (a : A) : M A := fun s => Ok a s.

Definition bind {A B} (m : M A) (k : A -> M B) : M B :=
  fun s => match m s with
           | Ok a s' => k a s'
           | Throw e s' => Throw e s'
           end.

Definition throw {A} (e : Exn) : M A := fun s => Throw e s.

(** [try { m } catch (err) { h err }] *)
Definition try_catch {A} (m : M A) (h : Exn -> M A) : M A :=
  fun s => match m s with
           | Ok a s' => Ok a s'
           | Throw e s' => h e s'
           end.

Notation "x <- m ;; k" := (bind m (fun x => k))
  (at level 61, m at next level, right associativity).
Notation "m ;; k" := (bind m (fun _ => k))
  (at level 61, right associativity).

Definition get {A} (f : State -> A) : M A := fun s => Ok (f s) s.
Definition modify (f : State -> State) : M unit := fun s => Ok tt (f s).

(** The state a handler leaves behind, whether it returned or threw (an
    exception that reaches the event loop is reported by the browser and the
    page goes on). *)
Definition state_of {A} (r : Result A) : State :=
  match r with Ok _ s => s | Throw _ s => s end.

Definition run (m : M unit) (s : State) : State := state_of (m s).

Fixpoint forEach {A} (f : A -> M unit) (l : list A) : M unit :=
  match l with
  | [] => ret tt
  | x :: xs => f x ;; forEach f xs
  end.

(** *** State setters and platform calls *)

Definition emit (e : Effect) : M unit :=
  modify (fun s => set_trace (trace s ++ [e]) s).

Definition console_log (msg : string) : M unit := emit (ConsoleLog msg).
Definition console_error (msg : string) : M unit := emit (ConsoleError msg).

Definition setRemoteStream (v : option MediaStream) := modify (set_remoteStream v).
Definition setIsInitialized (v : bool) := modify (set_isInitialized v).
Definition setIsRecording (v : bool) := modify (set_isRecording v).
Definition setMediaRecorder (v : option MediaRecorder) := modify (set_mediaRecorder v).
Definition setIsProcessing (v : bool) := modify (set_isProcessing v).
Definition setIsAISpeaking (v : bool) := modify (set_isAISpeaking v).
Definition setAiTranscript (v : option string) := modify (set_aiTranscript v).
Definition setError (v : option string) := modify (set_error v).

(** The setters of the sequences are called with an updater function. *)
Definition setAiMessages (f : list string -> list string) : M unit :=
  modify (fun s => set_aiMessages (f (aiMessages s)) s).
Definition setUserMessages (f : list string -> list string) : M unit :=
  modify (fun s => set_userMessages (f (userMessages s)) s).
Definition setAudioChunks (f : list Blob -> list Blob) : M unit :=
  modify (fun s => set_audioChunks (f (audioChunks s)) s).

(** ** [handleRealtimeEvent] *)

Definition handleContent (c : ContentPart) : M unit :=
  if content_type c =? "audio" then
    match transcript c with
    | Some t => setAiMessages (fun prev => prev ++ [t]) ;; setAiTranscript (Some t)
    | None => ret tt
    end
  else if content_type c =? "text" then
    match text c with
    | Some t => setAiMessages (fun prev => prev ++ [t]) ;; setAiTranscript (Some t)
    | None => ret tt
    end
  else ret tt.

Definition handleItem (item : OutputItem) : M unit :=
  if item_type item =? "message" then
    match content item with
    | Some cs => forEach handleContent cs
    | None => ret tt
    end
  else ret tt.

Definition handleRealtimeEvent (event : RealtimeEvent) : M unit :=
  if ev_type event =? "response.done" then
    match response event with
    | Some r =>
        match output r with
        | Some items => forEach handleItem items ;; setIsProcessing false
        | None => ret tt
        end
    | None => ret tt
    end
  else if ev_type event =? "response.error" then
    setAiMessages (fun prev => prev ++ ["AI encountered an error."]) ;;
    setIsProcessing false
  else
    console_log "Unhandled event type:".

(** ** Outbound messages *)

(** [window.btoa] on a binary string: three characters give four symbols of
    the base64 alphabet, the last group is padded with [=]. *)
Definition b64_alphabet : string :=
  "ABCDEFGHIJKLMNOPQRSTUVWXYZabcdefghijklmnopqrstuvwxyz0123456789+/".

Definition b64_char (n : N) : ascii :=
  match String.get (N.to_nat n) b64_alphabet with
  | Some c => c
  | None => "="%char
  end.

Fixpoint btoa (binary : string) : string :=
  match binary with
  | EmptyString => EmptyString
  | String a EmptyString =>
      let x := N_of_ascii a in
      String (b64_char (x / 4)) (String (b64_char ((x mod 4) * 16)) "==")
  | String a (String b EmptyString) =>
      let x := N_of_ascii a in
      let y := N_of_ascii b in
      String (b64_char (x / 4))
        (String (b64_char ((x mod 4) * 16 + y / 16))
           (String (b64_char ((y mod 16) * 4)) "="))
  | String a (String b (String c rest)) =>
      let x := N_of_ascii a in
      let y := N_of_ascii b in
      let z := N_of_ascii c in
      String (b64_char (x / 4))
        (String (b64_char ((x mod 4) * 16 + y / 16))
           (String (b64_char ((y mod 16) * 4 + z / 64))
              (String (b64_char (z mod 64)) (btoa rest))))
  end%N.

(** The loop [binary += String.fromCharCode(bytes[i])]; the elements of a
    [Uint8Array] are below 256. *)
Fixpoint binary_of_bytes (bytes : list N) : string :=
  match bytes with
  | [] => EmptyString
  | b :: rest => String (ascii_of_N (b mod 256)) (binary_of_bytes rest)
  end.

Definition arrayBufferToBase64 (buffer : list N) : string :=
  btoa (binary_of_bytes buffer).

(** [dc.send(JSON.stringify(m))]: [send] throws [InvalidStateError] unless the
    channel is open. *)
Definition dc_send (dc : RTCDataChannel) (m : Outbound) : M unit :=
  match dc_readyState dc with
  | open => emit (DcSend m)
  | _ => throw InvalidStateError
  end.

(** ** [sendAudio] *)

(** [reader.onload]: the result of [readAsArrayBuffer] is the [ArrayBuffer]
    of the blob's bytes, so the [instanceof] test holds whenever the handler
    runs. *)
Definition reader_onload (audioBlob : Blob) : M unit :=
  let base64Audio := arrayBufferToBase64 (blob_bytes audioBlob) in
  dc <- get dcRef ;;
  match dc with
  | Some d => dc_send d (OutAudio base64Audio)
  | None => ret tt
  end ;;
  setUserMessages (fun prev => prev ++ ["You: Audio sent"]).

(** [loaded] tells whether the read completes ([onload] fires) or fails (it
    never fires). *)
Definition sendAudio (audioBlob : Blob) (loaded : bool) : M unit :=
  dc <- get dcRef ;;
  match dc with
  | None =>
      console_error "Data channel not initialized." ;;
      setIsProcessing false ;;
      setError (Some "Data channel not initialized.")
  | Some _ =>
      if loaded then reader_onload audioBlob else ret tt
  end.

(** ** [sendTextMessage] *)

Definition sendTextMessage (text : string) : M unit :=
  dc <- get dcRef ;;
  match dc with
  | None => ret tt
  | Some d =>
      dc_send d (OutMessage text) ;;
      setUserMessages (fun prev => prev ++ [String.append "You: " text]) ;;
      setIsProcessing true
  end.

(** ** Recording *)

(** [navigator.mediaDevices.getUserMedia({ audio: true })]: [answer] is the
    stream, or [None] when the promise rejects. *)
Definition getUserMedia (answer : option MediaStream) : M MediaStream :=
  emit GetUserMedia ;;
  match answer with
  | Some stream => ret stream
  | None => throw (Rejected "getUserMedia")
  end.

(** [recorder.start()] and the state change of [recorder.stop()] act on the
    one recorder object, which the state cell refers to. *)
Definition recorder_set_state (st : RecordingState) : M unit :=
  modify (fun s =>
    set_mediaRecorder
      (option_map (fun r => {| recorder_stream := recorder_stream r;
                               recorder_state := st;
                               onstop_audioChunks := onstop_audioChunks r |})
         (mediaRecorder s)) s).

Definition startRecording (mic : option MediaStream) : M unit :=
  (* the constants of the render that created this closure *)
  audioChunks_of_render <- get audioChunks ;;
  pc <- get pcRef ;;
  match pc with
  | None => console_error "PeerConnection not initialized."
  | Some _ =>
      try_catch
        (stream <- getUserMedia mic ;;
         let recorder := {| recorder_stream := stream;
                            recorder_state := inactive;
                            onstop_audioChunks := audioChunks_of_render |} in
         setMediaRecorder (Some recorder) ;;
         setAudioChunks (fun _ => []) ;;
         recorder_set_state recording ;;
         setIsRecording true ;;
         setIsProcessing true ;;
         console_log "Recording started.")
        (fun err =>
           console_error "Error starting recording:" ;;
           setError (Some "Failed to start recording."))
  end.

(** [recorder.ondataavailable] *)
Definition ondataavailable (data : Blob) : M unit :=
  if (0 <? blob_size data)%nat
  then setAudioChunks (fun prev => prev ++ [data])
  else ret tt.

(** The blob [recorder.onstop] builds. *)
Definition onstop_audioBlob (r : MediaRecorder) : Blob :=
  new_Blob (onstop_audioChunks r) "audio/webm".

(** [recorder.onstop] *)
Definition onstop (r : MediaRecorder) (loaded : bool) : M unit :=
  sendAudio (onstop_audioBlob r) loaded.

(** [stopRecording], followed by the two events [mediaRecorder.stop()]
    queues: [dataavailable] with the data gathered since [start()] (no
    timeslice was given, so this is the only one), then [stop].  On a
    recorder that is not recording, [stop()] returns without queuing
    anything. *)
Definition stopRecording (data : Blob) (loaded : bool) : M unit :=
  mr <- get mediaRecorder ;;
  match mr with
  | None => ret tt
  | Some r =>
      recorder_set_state inactive ;;
      setIsRecording false ;;
      console_log "Recording stopped." ;;
      match recorder_state r with
      | recording => ondataavailable data ;; onstop r loaded
      | inactive => ret tt
      end
  end.

(** ** [initRealTimeConnection] *)

(** What [tokenResponse.json()] gives: a rejection, an object without
    [client_secret], or one with it ([value] may be missing). *)
Inductive TokenBody :=
| BodyNotJson
| BodyNoClientSecret
| BodyClientSecret (value : option string).

Record HttpResponse (B : Type) := {
  status : nat;
  body : B
}.

Arguments status {B} _.
Arguments body {B} _.

(** [Response.ok]: the status is in the range 200-299. *)
Definition ok {B} (r : HttpResponse B) : bool :=
  ((200 <=? status r) && (status r <=? 299))%nat.

(** The answers of the platform during one run of [initRealTimeConnection];
    [None] stands for a rejected promise. *)
Record InitEnv := {
  env_tokenResponse : option (HttpResponse TokenBody);
  env_localStream : option MediaStream;
  env_offer : option string;
  env_setLocalDescription : bool;
  env_sdpResponse : option (HttpResponse (option string));
  env_setRemoteDescription : bool
}.

Definition fetch {B} (url : string) (authorization : option string)
    (answer : option (HttpResponse B)) : M (HttpResponse B) :=
  emit (Fetch url authorization) ;;
  match answer with
  | Some r => ret r
  | None => throw (Rejected "fetch")
  end.

(** [const { client_secret } = await tokenResponse.json();
     const EPHEMERAL_KEY = client_secret.value;] *)
Definition read_EPHEMERAL_KEY (b : TokenBody) : M (option string) :=
  match b with
  | BodyNotJson => throw SyntaxError
  | BodyNoClientSecret => throw TypeError
  | BodyClientSecret value => ret value
  end.

Definition await_ok (what : string) (b : bool) : M unit :=
  if b then ret tt else throw (Rejected what).

Definition update_pc (f : RTCPeerConnection -> RTCPeerConnection) : M unit :=
  modify (fun s => set_pcRef (option_map f (pcRef s)) s).

(** The template [`Bearer ${EPHEMERAL_KEY}`]. *)
Definition bearer (key : option string) : string :=
  String.append "Bearer "
    match key with Some k => k | None => "undefined" end.

Definition realtime_url : string :=
  "https://api.openai.com/v1/realtime?model=gpt-4o-realtime-preview-2024-12-17".

Definition initRealTimeConnection (env : InitEnv) : M unit :=
  try_catch
    ((* 1. ephemeral key *)
     tokenResponse <- fetch "/api/session" None (env_tokenResponse env) ;;
     (if negb (ok tokenResponse)
      then throw (Error "Failed to fetch session token.")
      else ret tt) ;;
     EPHEMERAL_KEY <- read_EPHEMERAL_KEY (body tokenResponse) ;;
     (* 2. peer connection *)
     modify (set_pcRef (Some {| pc_senders := [];
                                pc_localDescription := None;
                                pc_remoteDescription := None |})) ;;
     (* 3. audio element; [pc.ontrack] is [ontrack] below *)
     modify (set_audioElRef (Some {| autoplay := true; srcObject := None |})) ;;
     (* 4. microphone track *)
     localStream <- getUserMedia (env_localStream env) ;;
     update_pc (fun pc => {| pc_senders := pc_senders pc ++ [localStream];
                             pc_localDescription := pc_localDescription pc;
                             pc_remoteDescription := pc_remoteDescription pc |}) ;;
     (* 5. data channel; its listener is [onmessage] below *)
     modify (set_dcRef (Some {| dc_label := "oai-events";
                                dc_readyState := connecting |})) ;;
     (* 6. offer *)
     offer <- match env_offer env with
              | Some sdp => ret sdp
              | None => throw (Rejected "createOffer")
              end ;;
     await_ok "setLocalDescription" (env_setLocalDescription env) ;;
     update_pc (fun pc => {| pc_senders := pc_senders pc;
                             pc_localDescription := Some offer;
                             pc_remoteDescription := pc_remoteDescription pc |}) ;;
     (* 7. send the offer *)
     sdpResponse <- fetch realtime_url (Some (bearer EPHEMERAL_KEY))
                      (env_sdpResponse env) ;;
     (if negb (ok sdpResponse)
      then throw (Error "Failed to establish peer connection with AI.")
      else ret tt) ;;
     (* 8. answer *)
     remoteAnswerSDP <- match body sdpResponse with
                        | Some sdp => ret sdp
                        | None => throw (Rejected "text")
                        end ;;
     await_ok "setRemoteDescription" (env_setRemoteDescription env) ;;
     update_pc (fun pc => {| pc_senders := pc_senders pc;
                             pc_localDescription := pc_localDescription pc;
                             pc_remoteDescription := Some remoteAnswerSDP |}) ;;
     setIsInitialized true ;;
     console_log "Real-time connection initialized!")
    (fun err =>
       console_error "Error initializing real-time connection:" ;;
       setError (Some "Failed to initialize connection. Please try again.")).

(** ** Platform callbacks *)

(** [pc.ontrack]; [stream0] is [e.streams[0]]. *)
Definition ontrack (stream0 : option MediaStream) : M unit :=
  console_log "Received remote audio track:" ;;
  el <- get audioElRef ;;
  match el with
  | Some a =>
      console_log "Received remote audio track:" ;;
      setRemoteStream stream0 ;;
      modify (set_audioElRef (Some {| autoplay := autoplay a; srcObject := stream0 |}))
  | None => ret tt
  end.

(** The [message] listener of the data channel.  [JSON_parse] is the
    platform's parser seen at the type of the interface: [None] when
    [JSON.parse] throws. *)
Definition onmessage (JSON_parse : string -> option RealtimeEvent)
    (data : string) : M unit :=
  try_catch
    (realtimeEvent <- match JSON_parse data with
                      | Some v => ret v
                      | None => throw SyntaxError
                      end ;;
     handleRealtimeEvent realtimeEvent)
    (fun err => console_error "Failed to parse message data:").

(** The connection is established and the platform opens the channel. *)
Definition dc_onopen : M unit :=
  modify (fun s =>
    set_dcRef (option_map (fun d => {| dc_label := dc_label d;
                                       dc_readyState := open |}) (dcRef s)) s).

Definition handlePlay : M unit := setIsAISpeaking true.
Definition handleEnded : M unit := setIsAISpeaking false.

(** ** The life of the mounted component *)

(** What can happen after mount: a platform callback or a user action, with
    the platform's answers. *)
Inductive Action :=
| Track (stream0 : option MediaStream)
| ChannelOpen
| Message (JSON_parse : string -> option RealtimeEvent) (data : string)
| Play
| Ended
| StartRecording (mic : option MediaStream)
| StopRecording (data : Blob) (loaded : bool)
| SendText (text : string).

Definition perform (a : Action) : M unit :=
  match a with
  | Track stream0 => ontrack stream0
  | ChannelOpen => dc_onopen
  | Message JSON_parse data => onmessage JSON_parse data
  | Play => handlePlay
  | Ended => handleEnded
  | StartRecording mic => startRecording mic
  | StopRecording data loaded => stopRecording data loaded
  | SendText text => sendTextMessage text
  end.

Definition perform_all (acts : list Action) (s : State) : State :=
  fold_left (fun st a => run (perform a) st) acts s.

(** The states of a mounted component: the effect on mount runs
    [initRealTimeConnection] from the initial values, then actions follow. *)
Inductive reachable : State -> Prop :=
| reach_mount env :
    reachable (run (initRealTimeConnection env) initial_state)
| reach_step a s :
    reachable s -> reachable (run (perform a) s).

(** The dispatcher over a sequence of inbound events, in arrival order. *)
Definition dispatch_all (events : list RealtimeEvent) (s : State) : State :=
  fold_left (fun st e => run (handleRealtimeEvent e) st) events s.

(** ** What the dispatcher appends *)

(** One entry of [content] gives at most one line: the transcript of an
    ["audio"] entry, the text of a ["text"] entry. *)
Definition content_texts (c : ContentPart) : list string :=
  if content_type c =? "audio" then
    match transcript c with Some t => [t] | None => [] end
  else if content_type c =? "text" then
    match text c with Some t => [t] | None => [] end
  else [].

Definition item_texts (item : OutputItem) : list string :=
  if item_type item =? "message" then
    match content item with
    | Some cs => flat_map content_texts cs
    | None => []
    end
  else [].

(** The output array of an event, when it has a response with one. *)
Definition event_output (e : RealtimeEvent) : option (list OutputItem) :=
  match response e with
  | Some r => output r
  | None => None
  end.

Definition event_texts (e : RealtimeEvent) : list string :=
  match event_output e with
  | Some items => flat_map item_texts items
  | None => []
  end.

(** Counting, entry by entry: an entry yields a line when it is an ["audio"]
    entry with a transcript or a ["text"] entry with a text. *)
Definition defined {A} (o : option A) : bool :=
  match o with Some _ => true | None => false end.

Definition yields_line (c : ContentPart) : bool :=
  ((content_type c =? "audio") && defined (transcript c))
  || ((content_type c =? "text") && defined (text c)).

Definition item_line_count (item : OutputItem) : nat :=
  if item_type item =? "message" then
    match content item with
    | Some cs => List.length (filter yields_line cs)
    | None => 0
    end
  else 0.

Definition event_line_count (e : RealtimeEvent) : nat :=
  match event_output e with
  | Some items => list_sum (map item_line_count items)
  | None => 0
  end.

Definition line_count (events : list RealtimeEvent) : nat :=
  list_sum (map event_line_count events).

(** The count of all content entries across all output items, whatever their
    kind. *)
Definition item_entry_count (item : OutputItem) : nat :=
  match content item with
  | Some cs => List.length cs
  | None => 0
  end.

Definition event_entry_count (e : RealtimeEvent) : nat :=
  match event_output e with
  | Some items => list_sum (map item_entry_count items)
  | None => 0
  end.

Definition content_entry_count (events : list RealtimeEvent) : nat :=
  list_sum (map event_entry_count events).

(** Appending one line, as the two setters of a content entry do. *)
Definition append_line (t : string) (s : State) : State :=
  set_aiTranscript (Some t) (set_aiMessages (aiMessages s ++ [t]) s).

Definition append_lines (ts : list string) (s : State) : State :=
  fold_left (fun st t => append_line t st) ts s.

Definition is_response_done (e : RealtimeEvent) : bool :=
  ev_type e =? "response.done".

Definition is_response_error (e : RealtimeEvent) : bool :=
  ev_type e =? "response.error".

(** ** Sample values *)

Definition sample_content (ty : string) (tr tx : option string) : ContentPart :=
  {| content_type := ty; transcript := tr; text := tx; audio_url := None |}.

Definition sample_item (ty : string) (cs : option (list ContentPart)) : OutputItem :=
  {| item_id := "item_1"; item_object := "realtime.item"; item_type := ty;
     item_status := "completed"; item_role := "assistant"; content := cs |}.

Definition sample_done (items : option (list OutputItem)) : RealtimeEvent :=
  {| ev_type := "response.done"; event_id := None;
     response := Some {| response_object := "realtime.response";
                         response_id := "resp_1";
                         response_status := "completed";
                         output := items |} |}.

(** [{"type":"response.done"}] *)
Definition bare_done : RealtimeEvent :=
  {| ev_type := "response.done"; event_id := None; response := None |}.

(** [{"type":"response.error"}] *)
Definition bare_error : RealtimeEvent :=
  {| ev_type := "response.error"; event_id := None; response := None |}.

(** An audio entry without transcript, inside a message. *)
Definition done_silent_audio : RealtimeEvent :=
  sample_done (Some [sample_item "message" (Some [sample_content "audio" None None])]).

Definition done_hello : RealtimeEvent :=
  sample_done (Some [sample_item "message"
                       (Some [sample_content "audio" (Some "Hello") None;
                              sample_content "text" None (Some "there")])]).

Definition sample_stream : MediaStream := {| stream_id := 1 |}.

Definition sample_env : InitEnv :=
  {| env_tokenResponse :=
       Some {| status := 200; body := BodyClientSecret (Some "ek_123") |};
     env_localStream := Some sample_stream;
     env_offer := Some "v=0 offer";
     env_setLocalDescription := true;
     env_sdpResponse := Some {| status := 201; body := Some "v=0 answer" |};
     env_setRemoteDescription := true |}.

(** The credential endpoint answers with status 500. *)
Definition env_token_500 : InitEnv :=
  {| env_tokenResponse := Some {| status := 500; body := BodyNoClientSecret |};
     env_localStream := Some sample_stream;
     env_offer := Some "v=0 offer";
     env_setLocalDescription := true;
     env_sdpResponse := Some {| status := 201; body := Some "v=0 answer" |};
     env_setRemoteDescription := true |}.

(** Mounted, negotiated, channel open. *)
Definition connected_state : State :=
  perform_all [ChannelOpen] (run (initRealTimeConnection sample_env) initial_state).

Definition sample_chunk : Blob :=
  {| blob_bytes := [77; 97; 110]%N; blob_type := "audio/webm" |}.

(** After a text was sent on the open channel: the processing flag is up. *)
Definition awaiting_state : State :=
  perform_all [SendText "hello"] connected_state.

(** In a recording session on the open channel. *)
Definition recording_state : State :=
  run (startRecording (Some sample_stream)) connected_state.

(** ** Vocabulary of the properties *)

Definition init_failure_message : string :=
  "Failed to initialize connection. Please try again.".

(** While there is no peer connection nothing is recording or processing,
    and there is neither a channel nor a recorder. *)
Definition idle_without_connection (s : State) : Prop :=
  pcRef s = None ->
  isRecording s = false /\ isProcessing s = false
  /\ dcRef s = None /\ mediaRecorder s = None.

Definition connection_exists (s : State) : Prop := pcRef s <> None.

(** Both sequences of [s] start with the given ones. *)
Definition extends (ai0 user0 : list string) (s : State) : Prop :=
  (exists k, aiMessages s = ai0 ++ k) /\ (exists k, userMessages s = user0 ++ k).

(** [P] holds in the state a computation leaves, returning or throwing,
    whenever it held before. *)
Definition preserves {A} (P : State -> Prop) (m : M A) : Prop :=
  forall s, P s -> P (state_of (m s)).

(** The operations that write to a transcript sequence. *)
Inductive TranscriptOp :=
| OpHandle (event : RealtimeEvent)
| OpSendAudio (audioBlob : Blob) (loaded : bool)
| OpSendText (text : string).

Definition transcript_op (op : TranscriptOp) : M unit :=
  match op with
  | OpHandle event => handleRealtimeEvent event
  | OpSendAudio audioBlob loaded => sendAudio audioBlob loaded
  | OpSendText text => sendTextMessage text
  end.

Definition channel_open (s : State) : bool :=
  match dcRef s with
  | Some d => match dc_readyState d with open => true | _ => false end
  | None => false
  end.

(** The lines an operation adds to the AI sequence, in order. *)
Definition ai_appended (op : TranscriptOp) : list string :=
  match op with
  | OpHandle e =>
      if is_response_done e then event_texts e
      else if is_response_error e then ["AI encountered an error."]
      else []
  | _ => []
  end.

(** The lines an operation adds to the user sequence, in order. *)
Definition user_appended (op : TranscriptOp) (s : State) : list string :=
  match op with
  | OpHandle _ => []
  | OpSendAudio _ loaded =>
      if channel_open s && loaded then ["You: Audio sent"] else []
  | OpSendText text =>
      if channel_open s then [String.append "You: " text] else []
  end.

(** ** The controls of the page *)

(** The [disabled] attributes of the two buttons and of the text input. *)
Definition start_disabled (s : State) : bool :=
  isRecording s || negb (isInitialized s).

Definition stop_disabled (s : State) : bool :=
  negb (isRecording s).

Definition text_disabled (s : State) : bool :=
  negb (isInitialized s) || isProcessing s.

(** ** The credential route: [POST /api/session] *)

(** The JSON the provider answers with, as far as the page reads it. *)
Inductive SessionData :=
| DataWithSecret (value : option string)   (* has [client_secret] *)
| DataOther.                               (* any other JSON *)

Inductive RouteBody :=
| Verbatim (data : SessionData)
| ErrorObject (error : string).

(** [upstream] is the answer of the provider: [None] when [fetch] rejects;
    the body is [None] when [response.json()] rejects.  [NextResponse.json]
    answers with status 200 unless told otherwise. *)
Definition POST (upstream : option (HttpResponse (option SessionData)))
  : HttpResponse RouteBody :=
  match upstream with
  | Some response =>
      match body response with
      | Some data => {| status := 200; body := Verbatim data |}
      | None => {| status := 500; body := ErrorObject "Failed to create session" |}
      end
  | None => {| status := 500; body := ErrorObject "Failed to create session" |}
  end.



(** ** Steps of the initialization *)

(** The token step passes: a response with a success status whose JSON has
    [client_secret]. *)
Definition credential_ok (env : InitEnv) : bool :=
  match env_tokenResponse env with
  | Some r => ok r && match body r with BodyClientSecret _ => true | _ => false end
  | None => false
  end.

(** The [EPHEMERAL_KEY] the token step reads. *)
Definition secret_value (env : InitEnv) : option string :=
  match env_tokenResponse env with
  | Some r => match body r with BodyClientSecret value => value | _ => None end
  | None => None
  end.

Definition offer_ok (env : InitEnv) : bool :=
  credential_ok env && defined (env_localStream env)
  && defined (env_offer env) && env_setLocalDescription env.

Definition answer_ok (env : InitEnv) : bool :=
  match env_sdpResponse env with
  | Some r => ok r && defined (body r) && env_setRemoteDescription env
  | None => false
  end.

Definition init_succeeds (env : InitEnv) : bool :=
  offer_ok env && answer_ok env.

Definition is_fetch_of (url : string) (e : Effect) : bool :=
  match e with
  | Fetch u _ => u =? url
  | _ => false
  end.

Definition is_getUserMedia (e : Effect) : bool :=
  match e with GetUserMedia => true | _ => false end.

Definition is_dc_send (e : Effect) : bool :=
  match e with DcSend _ => true | _ => false end.

(** ** Invariants of the mounted component *)

(** Once initialized, the connection carries both descriptions and the
    channel exists. *)
Definition negotiated (s : State) : Prop :=
  isInitialized s = true ->
  (exists pc, pcRef s = Some pc
              /\ pc_localDescription pc <> None
              /\ pc_remoteDescription pc <> None)
  /\ dcRef s <> None.

(** While the recording flag is up, the recorder in the state is live. *)
Definition recorder_live (s : State) : Prop :=
  isRecording s = true ->
  exists r, mediaRecorder s = Some r /\ recorder_state r = recording.

(** The stream given to the [AudioStream] component is the one set on the
    audio element. *)
Definition stream_shown (s : State) : Prop :=
  remoteStream s = match audioElRef s with
                   | Some a => srcObject a
                   | None => None
                   end.

(** ** Reading base64 back *)

(** Position of a symbol in an alphabet. *)
Fixpoint index_in (c : ascii) (alphabet : string) : N :=
  match alphabet with
  | EmptyString => 0
  | String d rest => if Ascii.eqb c d then 0 else N.succ (index_in c rest)
  end.

Definition b64_index (c : ascii) : N := index_in c b64_alphabet.

Definition is_pad (c : ascii) : bool := Ascii.eqb c "="%char.

(** The inverse of [btoa], the platform's [atob]: four symbols give back up
    to three characters.  It serves to show that [btoa] loses nothing. *)
Fixpoint atob (encoded : string) : string :=
  match encoded with
  | String c0 (String c1 (String c2 (String c3 rest))) =>
      let i0 := b64_index c0 in
      let i1 := b64_index c1 in
      let i2 := b64_index c2 in
      let i3 := b64_index c3 in
      if is_pad c2 then
        String (ascii_of_N (i0 * 4 + i1 / 16)) EmptyString
      else if is_pad c3 then
        String (ascii_of_N (i0 * 4 + i1 / 16))
          (String (ascii_of_N ((i1 mod 16) * 16 + i2 / 4)) EmptyString)
      else
        String (ascii_of_N (i0 * 4 + i1 / 16))
          (String (ascii_of_N ((i1 mod 16) * 16 + i2 / 4))
             (String (ascii_of_N ((i2 mod 4) * 64 + i3)) (atob rest)))
  | _ => EmptyString
  end%N.

(** The values of a sextet. *)
Definition sextets : list N := map N.of_nat (seq 0 64).

(** The bytes of a [Uint8Array]. *)
Definition is_byte (b : N) : Prop := (b < 256)%N.

Fixpoint bytes_of_binary (binary : string) : list N :=
  match binary with
  | EmptyString => []
  | String c rest => N_of_ascii c :: bytes_of_binary rest
  end.

(** ** The user sequence and the channel *)

(** The line the page shows for a message it sent. *)
Definition user_line (m : Outbound) : string :=
  match m with
  | OutAudio _ => "You: Audio sent"
  | OutMessage text => String.append "You: " text
  end.

(** The messages handed to the channel, in order. *)
Fixpoint sent_messages (t : list Effect) : list Outbound :=
  match t with
  | [] => []
  | DcSend m :: rest => m :: sent_messages rest
  | _ :: rest => sent_messages rest
  end.

Definition transcript_mirrors_channel (s : State) : Prop :=
  userMessages s = map user_line (sent_messages (trace s)).


(** ** The [AudioStream] component *)

(** The [audio] element the component renders.  Each [loadedmetadata]
    listener is named by the run of the effect that added it; listeners are
    never removed. *)
Record AudioNode := {
  node_srcObject : option MediaStream;
  node_paused : bool;
  node_listeners : list nat
}.

(** [audioRef], the variable [mounted] of each run of the effect (in the
    order of the runs), the calls of [play()] so far and the console. *)
Record AudioStreamState := {
  audioRef : option AudioNode;
  mounted : list bool;
  play_calls : nat;
  stream_console : list string
}.

(** [mounted = false] in the closure of run [run_id]. *)
Fixpoint clear_flag (run_id : nat) (flags : list bool) : list bool :=
  match flags, run_id with
  | [], _ => []
  | _ :: rest, 0 => false :: rest
  | b :: rest, S i => b :: clear_flag i rest
  end.

(** The body of the effect, for a new value of [stream]. *)
Definition audioStream_effect (stream : option MediaStream)
    (c : AudioStreamState) : AudioStreamState :=
  let run_id := List.length (mounted c) in
  match audioRef c, stream with
  | Some node, Some st =>
      {| audioRef := Some {| node_srcObject := Some st;
                             node_paused := node_paused node;
                             node_listeners := node_listeners node ++ [run_id] |};
         mounted := mounted c ++ [true];
         play_calls := play_calls c;
         stream_console := stream_console c |}
  | _, _ =>
      {| audioRef := audioRef c;
         mounted := mounted c ++ [true];
         play_calls := play_calls c;
         stream_console := stream_console c |}
  end.

(** The function the effect of run [run_id] returns. *)
Definition audioStream_cleanup (run_id : nat) (c : AudioStreamState)
  : AudioStreamState :=
  {| audioRef :=
       match audioRef c with
       | Some node => Some {| node_srcObject := None;
                              node_paused := true;
                              node_listeners := node_listeners node |}
       | None => None
       end;
     mounted := clear_flag run_id (mounted c);
     play_calls := play_calls c;
     stream_console := stream_console c |}.

(** The listener of run [run_id]; [play_ok] tells whether the promise of
    [play()] resolves. *)
Definition on_loadedmetadata (play_ok : bool) (run_id : nat)
    (c : AudioStreamState) : AudioStreamState :=
  match nth run_id (mounted c) false, audioRef c with
  | true, Some node =>
      {| audioRef := Some {| node_srcObject := node_srcObject node;
                             node_paused := if play_ok then false
                                            else node_paused node;
                             node_listeners := node_listeners node |};
         mounted := mounted c;
         play_calls := S (play_calls c);
         stream_console :=
           if play_ok then stream_console c
           else stream_console c ++ ["Error playing audio:"] |}
  | _, _ => c
  end.

(** The element fires [loadedmetadata]: its listeners run in the order they
    were added. *)
Definition fire_loadedmetadata (play_ok : bool) (c : AudioStreamState)
  : AudioStreamState :=
  match audioRef c with
  | Some node =>
      fold_left (fun st run_id => on_loadedmetadata play_ok run_id st)
        (node_listeners node) c
  | None => c
  end.

(** First render: the element is attached, then the effect runs. *)
Definition audioStream_mount (stream : option MediaStream) : AudioStreamState :=
  audioStream_effect stream
    {| audioRef := Some {| node_srcObject := None; node_paused := true;
                           node_listeners := [] |};
       mounted := [];
       play_calls := 0;
       stream_console := [] |}.

(** [stream] changes: the cleanup of the latest run, then the effect. *)
Definition audioStream_update (stream : option MediaStream)
    (c : AudioStreamState) : AudioStreamState :=
  audioStream_effect stream
    (audioStream_cleanup (List.length (mounted c) - 1) c).

Inductive StreamEvent :=
| StreamChanged (stream : option MediaStream)
| LoadedMetadata (play_ok : bool).

Definition stream_step (c : AudioStreamState) (ev : StreamEvent)
  : AudioStreamState :=
  match ev with
  | StreamChanged stream => audioStream_update stream c
  | LoadedMetadata play_ok => fire_loadedmetadata play_ok c
  end.

(** The component from its first render through a sequence of events. *)
Definition audioStream_life (stream : option MediaStream)
    (events : list StreamEvent) : AudioStreamState :=
  fold_left stream_step events (audioStream_mount stream).

(** Only the latest run is still mounted, and it added a listener exactly
    when it was given a stream. *)
Definition one_live_run (c : AudioStreamState) : Prop :=
  exists n node,
    mounted c = repeat false n ++ [true]
    /\ audioRef c = Some node
    /\ Forall (fun i => i <= n) (node_listeners node)
    /\ count_occ Nat.eq_dec (node_listeners node) n
       = (if defined (node_srcObject node) then 1 else 0).

(** The listeners whose run is still mounted. *)
Definition live_listeners (flags : list bool) (listeners : list nat) : list nat :=
  filter (fun i => nth i flags false) listeners.

(** * Properties *)

(** ** The dispatcher *)

Lemma handleContent_eq (c : ContentPart) (s : State) :
  handleContent c s = Ok tt (append_lines (content_texts c) s).
Proof.
  unfold handleContent, content_texts.
  destruct (content_type c =? "audio").
  - destruct (transcript c); reflexivity.
  - destruct (content_type c =? "text"); [destruct (text c)|]; reflexivity.
Qed.

Lemma append_lines_app (ts us : list string) (s : State) :
  append_lines (ts ++ us) s = append_lines us (append_lines ts s).
Proof. apply fold_left_app. Qed.

Lemma forEach_handleContent (cs : list ContentPart) (s : State) :
  forEach handleContent cs s = Ok tt (append_lines (flat_map content_texts cs) s).
Proof.
  revert s; induction cs as [|c cs IH]; intros s; [reflexivity|].
  cbn [forEach flat_map]. unfold bind at 1.
  rewrite handleContent_eq, IH, append_lines_app. reflexivity.
Qed.

Lemma handleItem_eq (item : OutputItem) (s : State) :
  handleItem item s = Ok tt (append_lines (item_texts item) s).
Proof.
  unfold handleItem, item_texts.
  destruct (item_type item =? "message"); [|reflexivity].
  destruct (content item); [apply forEach_handleContent|reflexivity].
Qed.

Lemma forEach_handleItem (items : list OutputItem) (s : State) :
  forEach handleItem items s = Ok tt (append_lines (flat_map item_texts items) s).
Proof.
  revert s; induction items as [|i items IH]; intros s; [reflexivity|].
  cbn [forEach flat_map]. unfold bind at 1.
  rewrite handleItem_eq, IH, append_lines_app. reflexivity.
Qed.

(** The three branches of the [switch]. *)
Lemma handle_done (e : RealtimeEvent) (s : State) :
  is_response_done e = true ->
  handleRealtimeEvent e s =
  Ok tt match event_output e with
        | Some items => set_isProcessing false (append_lines (flat_map item_texts items) s)
        | None => s
        end.
Proof.
  unfold is_response_done, handleRealtimeEvent, event_output. intros ->.
  destruct (response e) as [r|]; [|reflexivity].
  destruct (output r) as [items|]; [|reflexivity].
  unfold bind. rewrite forEach_handleItem. reflexivity.
Qed.

Lemma handle_error (e : RealtimeEvent) (s : State) :
  is_response_error e = true ->
  handleRealtimeEvent e s =
  Ok tt (set_isProcessing false
           (set_aiMessages (aiMessages s ++ ["AI encountered an error."]) s)).
Proof.
  unfold is_response_error, handleRealtimeEvent. intros H.
  destruct (ev_type e =? "response.done") eqn:D.
  - apply String.eqb_eq in D. apply String.eqb_eq in H. congruence.
  - rewrite H. reflexivity.
Qed.

Lemma handle_other (e : RealtimeEvent) (s : State) :
  is_response_done e = false ->
  is_response_error e = false ->
  handleRealtimeEvent e s =
  Ok tt (set_trace (trace s ++ [ConsoleLog "Unhandled event type:"]) s).
Proof.
  unfold is_response_done, is_response_error, handleRealtimeEvent.
  intros -> ->. reflexivity.
Qed.

Lemma aiMessages_append_lines (ts : list string) (s : State) :
  aiMessages (append_lines ts s) = aiMessages s ++ ts.
Proof.
  revert s; induction ts as [|t ts IH]; intros s; cbn.
  - now rewrite app_nil_r.
  - unfold append_lines in IH. rewrite IH. cbn. now rewrite <- app_assoc.
Qed.

(** [append_lines] touches the AI sequence and the latest utterance only. *)
Lemma append_lines_frame (ts : list string) (s : State) :
  append_lines ts s =
  set_aiTranscript (aiTranscript (append_lines ts s))
    (set_aiMessages (aiMessages s ++ ts) s).
Proof.
  revert s; induction ts as [|t ts IH]; intros s.
  - cbn. rewrite app_nil_r. destruct s; reflexivity.
  - change (append_lines (t :: ts) s) with (append_lines ts (append_line t s)).
    rewrite IH at 1. cbn. now rewrite <- app_assoc.
Qed.

Lemma length_one_content (c : ContentPart) :
  List.length (content_texts c) = if yields_line c then 1 else 0.
Proof.
  unfold content_texts, yields_line.
  destruct (content_type c =? "audio") eqn:A.
  - apply String.eqb_eq in A. rewrite A. cbn.
    destruct (transcript c); reflexivity.
  - destruct (content_type c =? "text"); cbn; [destruct (text c)|]; reflexivity.
Qed.

Lemma length_content_texts (cs : list ContentPart) :
  List.length (flat_map content_texts cs) = List.length (filter yields_line cs).
Proof.
  induction cs as [|c cs IH]; [reflexivity|].
  cbn [flat_map filter]. rewrite length_app, IH, length_one_content.
  destruct (yields_line c); reflexivity.
Qed.

Lemma length_one_item (i : OutputItem) :
  List.length (item_texts i) = item_line_count i.
Proof.
  unfold item_texts, item_line_count.
  destruct (item_type i =? "message"); [|reflexivity].
  destruct (content i); [apply length_content_texts|reflexivity].
Qed.

Lemma length_item_texts (items : list OutputItem) :
  List.length (flat_map item_texts items) = list_sum (map item_line_count items).
Proof.
  induction items as [|i items IH]; [reflexivity|].
  cbn [flat_map map]. rewrite length_app, IH, length_one_item. reflexivity.
Qed.

Lemma length_event_texts (e : RealtimeEvent) :
  List.length (event_texts e) = event_line_count e.
Proof.
  unfold event_texts, event_line_count.
  destruct (event_output e); [apply length_item_texts|reflexivity].
Qed.

Lemma aiMessages_handle_done (e : RealtimeEvent) (s : State) :
  is_response_done e = true ->
  aiMessages (run (handleRealtimeEvent e) s) = aiMessages s ++ event_texts e.
Proof.
  intros H. unfold run. rewrite (handle_done _ _ H). unfold event_texts.
  destruct (event_output e); cbn.
  - apply aiMessages_append_lines.
  - now rewrite app_nil_r.
Qed.

Lemma aiMessages_dispatch_done (events : list RealtimeEvent) (s : State) :
  Forall (fun e => is_response_done e = true) events ->
  aiMessages (dispatch_all events s) = aiMessages s ++ flat_map event_texts events.
Proof.
  intros H; revert s.
  induction H as [|e events He _ IH]; intros s; cbn.
  - now rewrite app_nil_r.
  - unfold dispatch_all in IH. rewrite IH, (aiMessages_handle_done _ _ He).
    now rewrite app_assoc.
Qed.

Lemma length_flat_event_texts (events : list RealtimeEvent) :
  List.length (flat_map event_texts events) = line_count events.
Proof.
  induction events as [|e events IH]; [reflexivity|].
  cbn [flat_map]. rewrite length_app, IH, length_event_texts. reflexivity.
Qed.

(** C1, as amended.  After a sequence of [response.done] events the AI
    sequence is the earlier sequence followed, in arrival order, by the lines
    of the events: the transcripts of the ["audio"] entries and the texts of
    the ["text"] entries inside items of kind ["message"].  Its length grows
    by the number of those entries; from the empty sequence it equals that
    number. *)
Theorem dispatch_done_appends_lines (events : list RealtimeEvent) (s : State) :
  Forall (fun e => is_response_done e = true) events ->
  aiMessages (dispatch_all events s) = aiMessages s ++ flat_map event_texts events
  /\ List.length (aiMessages (dispatch_all events s))
     = List.length (aiMessages s) + line_count events
  /\ List.length (aiMessages (dispatch_all events initial_state))
     = line_count events.
Proof.
  intros H. repeat split.
  - now apply aiMessages_dispatch_done.
  - rewrite (aiMessages_dispatch_done _ _ H), length_app.
    now rewrite length_flat_event_texts.
  - rewrite (aiMessages_dispatch_done _ _ H). cbn [aiMessages initial_state app].
    apply length_flat_event_texts.
Qed.

Lemma dispatch_done_appends_lines_witness :
  Forall (fun e => is_response_done e = true) [done_hello; done_silent_audio]
  /\ aiMessages (dispatch_all [done_hello; done_silent_audio] initial_state)
     = ["Hello"; "there"].
Proof.
  split.
  - repeat constructor.
  - apply (dispatch_done_appends_lines [done_hello; done_silent_audio] initial_state).
    repeat constructor.
Defined.

(** C1, as stated, fails: an ["audio"] entry without transcript is a content
    entry of a processed [response.done] event and adds no line. *)
Lemma content_entry_count_not_length :
  is_response_done done_silent_audio = true
  /\ content_entry_count [done_silent_audio] = 1
  /\ List.length (aiMessages (dispatch_all [done_silent_audio] initial_state))
     <> content_entry_count [done_silent_audio].
Proof. repeat split. cbv. discriminate. Qed.

(** C3, as amended.  A [response.done] event that carries a response with an
    output array clears the processing flag; one that carries none leaves the
    state as it was. *)
Theorem handle_done_processing (e : RealtimeEvent) (s : State) :
  is_response_done e = true ->
  match event_output e with
  | Some _ => isProcessing (run (handleRealtimeEvent e) s) = false
  | None => run (handleRealtimeEvent e) s = s
  end.
Proof.
  intros H. unfold run. rewrite (handle_done _ _ H).
  destruct (event_output e); reflexivity.
Qed.

Lemma handle_done_processing_witness :
  is_response_done done_hello = true
  /\ isProcessing (run (handleRealtimeEvent done_hello) awaiting_state) = false.
Proof.
  split.
  - reflexivity.
  - apply (handle_done_processing done_hello awaiting_state). reflexivity.
Defined.

(** C3, as stated, fails: [{"type":"response.done"}] without a response
    leaves the processing flag up. *)
Lemma bare_done_keeps_processing :
  is_response_done bare_done = true
  /\ isProcessing awaiting_state = true
  /\ isProcessing (run (handleRealtimeEvent bare_done) awaiting_state) <> false.
Proof. repeat split. cbv. discriminate. Qed.

(** C7.  A [response.error] event appends the one line
    ["AI encountered an error."] to the AI sequence and clears the processing
    flag; the resulting state differs from the earlier one in these two
    fields only. *)
Theorem handle_error_appends_one (e : RealtimeEvent) (s : State) :
  is_response_error e = true ->
  run (handleRealtimeEvent e) s
  = set_isProcessing false
      (set_aiMessages (aiMessages s ++ ["AI encountered an error."]) s)
  /\ aiMessages (run (handleRealtimeEvent e) s)
     = aiMessages s ++ ["AI encountered an error."]
  /\ isProcessing (run (handleRealtimeEvent e) s) = false.
Proof.
  intros H. unfold run. rewrite (handle_error _ _ H). repeat split.
Qed.

Lemma handle_error_appends_one_witness :
  is_response_error bare_error = true
  /\ aiMessages (run (handleRealtimeEvent bare_error) awaiting_state)
     = aiMessages awaiting_state ++ ["AI encountered an error."]
  /\ isProcessing (run (handleRealtimeEvent bare_error) awaiting_state) = false.
Proof.
  split.
  - reflexivity.
  - apply (handle_error_appends_one bare_error awaiting_state). reflexivity.
Defined.

(** ** Guards *)

(** C5.  Without a data channel [sendTextMessage] returns at once: the state,
    trace included, is the one it was called in, so no message left. *)
Theorem sendTextMessage_without_channel (text : string) (s : State) :
  dcRef s = None ->
  sendTextMessage text s = Ok tt s.
Proof.
  intros H. unfold sendTextMessage, bind, get. rewrite H. reflexivity.
Qed.

Lemma sendTextMessage_without_channel_witness :
  dcRef initial_state = None
  /\ sendTextMessage "hello" initial_state = Ok tt initial_state.
Proof.
  split.
  - reflexivity.
  - apply (sendTextMessage_without_channel "hello" initial_state). reflexivity.
Defined.

(** C10.  Without a media recorder [stopRecording] does nothing: the state,
    trace included, is the one it was called in, and [sendAudio] is not
    reached. *)
Theorem stopRecording_without_recorder (data : Blob) (loaded : bool) (s : State) :
  mediaRecorder s = None ->
  stopRecording data loaded s = Ok tt s.
Proof.
  intros H. unfold stopRecording, bind, get. rewrite H. reflexivity.
Qed.

Lemma stopRecording_without_recorder_witness :
  mediaRecorder connected_state = None
  /\ stopRecording sample_chunk true connected_state = Ok tt connected_state.
Proof.
  split.
  - reflexivity.
  - apply (stopRecording_without_recorder sample_chunk true connected_state).
    reflexivity.
Defined.

(** C9.  A message whose data [JSON.parse] rejects is reported on the console
    and dropped: the listener returns, and the state differs from the earlier
    one in the trace only, so the sequences, the flags, the error cell and
    the channel are as before. *)
Theorem onmessage_malformed
    (JSON_parse : string -> option RealtimeEvent) (data : string) (s : State) :
  JSON_parse data = None ->
  onmessage JSON_parse data s
  = Ok tt (set_trace (trace s ++ [ConsoleError "Failed to parse message data:"]) s)
  /\ aiMessages (run (onmessage JSON_parse data) s) = aiMessages s
  /\ userMessages (run (onmessage JSON_parse data) s) = userMessages s
  /\ isProcessing (run (onmessage JSON_parse data) s) = isProcessing s
  /\ isRecording (run (onmessage JSON_parse data) s) = isRecording s
  /\ isInitialized (run (onmessage JSON_parse data) s) = isInitialized s
  /\ error (run (onmessage JSON_parse data) s) = error s
  /\ dcRef (run (onmessage JSON_parse data) s) = dcRef s.
Proof.
  intros H.
  assert (E : onmessage JSON_parse data s
              = Ok tt (set_trace
                         (trace s ++ [ConsoleError "Failed to parse message data:"]) s)).
  { unfold onmessage, try_catch, bind, throw. rewrite H. reflexivity. }
  unfold run. rewrite E. repeat split.
Qed.

Lemma onmessage_malformed_witness :
  (fun _ : string => @None RealtimeEvent) "{oops" = None
  /\ dcRef (run (onmessage (fun _ => None) "{oops") connected_state)
     = Some {| dc_label := "oai-events"; dc_readyState := open |}.
Proof.
  split.
  - reflexivity.
  - apply (onmessage_malformed (fun _ => None) "{oops" connected_state).
    reflexivity.
Defined.

(** ** Initialization *)

(** C6.  When the credential endpoint answers with a status outside 200-299,
    [initRealTimeConnection] stops at the first step: it has made the one
    request, reports on the console and sets the error cell to the fixed
    sentence, and nothing else changes.  From the initial values the peer
    connection and the data channel stay null and the initialized flag stays
    false. *)
Theorem init_credential_failure (env : InitEnv) (r : HttpResponse TokenBody) (s : State) :
  env_tokenResponse env = Some r ->
  ok r = false ->
  initRealTimeConnection env s
  = Ok tt (set_error (Some init_failure_message)
             (set_trace
                ((trace s ++ [Fetch "/api/session" None])
                 ++ [ConsoleError "Error initializing real-time connection:"]) s))
  /\ error (run (initRealTimeConnection env) initial_state)
     = Some "Failed to initialize connection. Please try again."
  /\ pcRef (run (initRealTimeConnection env) initial_state) = None
  /\ dcRef (run (initRealTimeConnection env) initial_state) = None
  /\ isInitialized (run (initRealTimeConnection env) initial_state) = false.
Proof.
  intros Hr Hok.
  assert (E : forall st, initRealTimeConnection env st
              = Ok tt (set_error (Some init_failure_message)
                         (set_trace
                            ((trace st ++ [Fetch "/api/session" None])
                             ++ [ConsoleError "Error initializing real-time connection:"])
                            st))).
  { intros st. unfold initRealTimeConnection, try_catch, bind at 1.
    unfold fetch, bind at 1. rewrite Hr. cbn. unfold bind at 1.
    rewrite Hok. reflexivity. }
  split; [apply E|]. unfold run. rewrite E. repeat split.
Qed.

Lemma init_credential_failure_witness :
  env_tokenResponse env_token_500
  = Some {| status := 500; body := BodyNoClientSecret |}
  /\ ok {| status := 500; body := BodyNoClientSecret |} = false
  /\ pcRef (run (initRealTimeConnection env_token_500) initial_state) = None.
Proof.
  split; [reflexivity|]. split; [reflexivity|].
  apply (init_credential_failure env_token_500
           {| status := 500; body := BodyNoClientSecret |} initial_state);
    reflexivity.
Defined.

(** ** Preservation through the monad *)

Section Preservation.
Variable P : State -> Prop.

Lemma preserves_ret {A} (a : A) : preserves P (ret a).
Proof. intros s H; exact H. Qed.

Lemma preserves_throw {A} (e : Exn) : preserves P (@throw A e).
Proof. intros s H; exact H. Qed.

Lemma preserves_get {A} (f : State -> A) : preserves P (get f).
Proof. intros s H; exact H. Qed.

Lemma preserves_modify (f : State -> State) :
  (forall s, P s -> P (f s)) -> preserves P (modify f).
Proof. intros Hf s H; apply Hf, H. Qed.

Lemma preserves_bind {A B} (m : M A) (k : A -> M B) :
  preserves P m -> (forall a, preserves P (k a)) -> preserves P (bind m k).
Proof.
  intros Hm Hk s H. unfold bind. specialize (Hm s H).
  destruct (m s) as [a s'|e s']; cbn in *; [apply Hk|]; assumption.
Qed.

Lemma preserves_try_catch {A} (m : M A) (h : Exn -> M A) :
  preserves P m -> (forall e, preserves P (h e)) ->
  preserves P (try_catch m h).
Proof.
  intros Hm Hh s H. unfold try_catch. specialize (Hm s H).
  destruct (m s) as [a s'|e s']; cbn in *; [|apply Hh]; assumption.
Qed.

Lemma preserves_forEach {A} (f : A -> M unit) (l : list A) :
  (forall x, preserves P (f x)) -> preserves P (forEach f l).
Proof.
  intros Hf. induction l as [|x l IH]; cbn [forEach].
  - apply preserves_ret.
  - apply preserves_bind; [apply Hf|intros _; exact IH].
Qed.
End Preservation.

Ltac head_of t := match t with ?f _ => head_of f | _ => t end.

(** One step through a handler: a monad rule, a case split on what the
    handler branches on, or unfolding the handler at the head. *)
Ltac preserve_step :=
  lazymatch goal with
  | |- preserves _ (bind _ _) => apply preserves_bind; [|intros ?]
  | |- preserves _ (try_catch _ _) => apply preserves_try_catch; [|intros ?]
  | |- preserves _ (ret _) => apply preserves_ret
  | |- preserves _ (throw _) => apply preserves_throw
  | |- preserves _ (get _) => apply preserves_get
  | |- preserves _ (modify _) => apply preserves_modify; intros ? ?
  | |- preserves _ (forEach _ _) => apply preserves_forEach; intros ?
  | |- preserves _ (match ?x with _ => _ end) => destruct x; cbv beta iota
  | |- preserves _ ?m => let h := head_of m in unfold h
  end.

Ltac preserve := repeat preserve_step.

Ltac solve_extends :=
  match goal with
  | H : extends _ _ _ |- extends _ _ _ =>
      destruct H as [[k1 H1] [k2 H2]]; split; cbn;
      [rewrite ?H1 | rewrite ?H2]; rewrite <- ?app_assoc; eexists; reflexivity
  end.

Ltac solve_connection :=
  match goal with
  | H : connection_exists ?s |- connection_exists _ =>
      unfold connection_exists in *; cbn;
      try destruct (pcRef s); cbn; congruence
  end.

Ltac solve_idle :=
  match goal with
  | H : idle_without_connection ?s |- idle_without_connection _ =>
      unfold idle_without_connection in *; cbn; intros Hpc;
      try (destruct (pcRef s); [discriminate Hpc|]);
      destruct (H ltac:(assumption || reflexivity)) as (? & ? & Hd & Hm);
      rewrite ?Hd, ?Hm; cbn; auto
  end.

(** Every action, and the initialization, only appends to the two
    sequences. *)
Lemma perform_extends (ai0 user0 : list string) (a : Action) :
  preserves (extends ai0 user0) (perform a).
Proof. destruct a; cbn [perform]; preserve; solve_extends. Qed.

Lemma init_extends (ai0 user0 : list string) (env : InitEnv) :
  preserves (extends ai0 user0) (initRealTimeConnection env).
Proof. preserve; solve_extends. Qed.

Lemma extends_refl (s : State) : extends (aiMessages s) (userMessages s) s.
Proof. split; exists []; now rewrite app_nil_r. Qed.

Lemma perform_all_extends (acts : list Action) (s : State) :
  extends (aiMessages s) (userMessages s) (perform_all acts s).
Proof.
  assert (G : forall ai0 user0 st, extends ai0 user0 st ->
                extends ai0 user0 (perform_all acts st)).
  { induction acts as [|a acts IH]; intros ai0 user0 st H; [exact H|].
    apply IH, (perform_extends ai0 user0 a st H). }
  apply G, extends_refl.
Qed.

(** The peer connection, once there, stays. *)
Lemma perform_connection (a : Action) : preserves connection_exists (perform a).
Proof. destruct a; cbn [perform]; preserve; solve_connection. Qed.

Lemma connection_idle (s : State) : connection_exists s -> idle_without_connection s.
Proof. intros H Hpc. contradiction. Qed.

Lemma init_idle (env : InitEnv) :
  idle_without_connection (run (initRealTimeConnection env) initial_state).
Proof.
  destruct env as [[r1|] [mic|] [off|] sl [r2|] sr];
    unfold idle_without_connection, run, initRealTimeConnection, try_catch,
      bind, fetch, getUserMedia, emit, modify, throw, ret; cbn -[ok];
    try (destruct (ok r1); cbn -[ok]);
    try (destruct (body r1); cbn -[ok]);
    try (destruct sl; cbn -[ok]);
    try (destruct (ok r2); cbn -[ok]);
    try (destruct (body r2); cbn -[ok]);
    try (destruct sr; cbn -[ok]);
    intros H; try discriminate H; auto.
Qed.

Lemma startRecording_no_connection (mic : option MediaStream) (s : State) :
  pcRef s = None ->
  startRecording mic s
  = Ok tt (set_trace (trace s ++ [ConsoleError "PeerConnection not initialized."]) s).
Proof.
  intros H. unfold startRecording, bind, get. rewrite H. reflexivity.
Qed.

Lemma sendTextMessage_no_channel (text : string) (s : State) :
  dcRef s = None -> sendTextMessage text s = Ok tt s.
Proof.
  intros H. unfold sendTextMessage, bind, get. rewrite H. reflexivity.
Qed.

Lemma perform_idle (a : Action) : preserves idle_without_connection (perform a).
Proof.
  destruct a as [stream0| |JSON_parse data| | |mic|data loaded|txt];
    cbn [perform];
    try solve [preserve; solve_idle];
    intros s H; destruct (pcRef s) eqn:Hpc.
  - apply connection_idle, (perform_connection (StartRecording mic)).
    unfold connection_exists; congruence.
  - destruct (H Hpc) as (Hr & Hp & Hd & Hm).
    rewrite (startRecording_no_connection mic s Hpc). cbn.
    intros _. auto.
  - apply connection_idle, (perform_connection (SendText txt)).
    unfold connection_exists; congruence.
  - destruct (H Hpc) as (Hr & Hp & Hd & Hm).
    rewrite (sendTextMessage_no_channel txt s Hd). exact H.
Qed.

Lemma reachable_idle (s : State) : reachable s -> idle_without_connection s.
Proof.
  induction 1 as [env|a s _ IH].
  - apply init_idle.
  - apply (perform_idle a s IH).
Qed.

(** C8.  In a state of the mounted component without a peer connection,
    [startRecording] is turned away at its first test: it writes one console
    error and returns.  No [getUserMedia] call is made, no recorder is
    created, and the recording and processing flags are false afterwards. *)
Theorem startRecording_without_connection (mic : option MediaStream) (s : State) :
  reachable s ->
  pcRef s = None ->
  startRecording mic s
  = Ok tt (set_trace (trace s ++ [ConsoleError "PeerConnection not initialized."]) s)
  /\ isRecording (run (startRecording mic) s) = false
  /\ isProcessing (run (startRecording mic) s) = false
  /\ mediaRecorder (run (startRecording mic) s) = None
  /\ trace (run (startRecording mic) s)
     = trace s ++ [ConsoleError "PeerConnection not initialized."].
Proof.
  intros Hreach Hpc.
  destruct (reachable_idle s Hreach Hpc) as (Hr & Hp & _ & Hm).
  unfold run. rewrite (startRecording_no_connection mic s Hpc). cbn.
  repeat split; assumption.
Qed.

Lemma startRecording_without_connection_witness :
  reachable (run (initRealTimeConnection env_token_500) initial_state)
  /\ pcRef (run (initRealTimeConnection env_token_500) initial_state) = None
  /\ isRecording (run (startRecording (Some sample_stream))
                    (run (initRealTimeConnection env_token_500) initial_state))
     = false.
Proof.
  split; [apply reach_mount|]. split; [reflexivity|].
  apply (startRecording_without_connection (Some sample_stream)
           (run (initRealTimeConnection env_token_500) initial_state)).
  - apply reach_mount.
  - reflexivity.
Defined.

(** ** Transcripts *)

Lemma userMessages_append_lines (ts : list string) (s : State) :
  userMessages (append_lines ts s) = userMessages s.
Proof. rewrite append_lines_frame. reflexivity. Qed.

(** C4.  Handling an inbound event, sending audio and sending text leave each
    transcript sequence equal to the earlier sequence followed by the lines
    of the operation, in the order the operation meets them: the earlier
    sequence is a prefix of the later one and no entry is changed or
    removed. *)
Theorem transcripts_only_grow (op : TranscriptOp) (s : State) :
  aiMessages (run (transcript_op op) s) = aiMessages s ++ ai_appended op
  /\ userMessages (run (transcript_op op) s)
     = userMessages s ++ user_appended op s.
Proof.
  destruct op as [e|audioBlob loaded|txt]; cbn [transcript_op ai_appended user_appended].
  - unfold run.
    destruct (is_response_done e) eqn:D.
    + rewrite (handle_done e s D). unfold event_texts.
      destruct (event_output e); cbn.
      * now rewrite aiMessages_append_lines, userMessages_append_lines, app_nil_r.
      * now rewrite !app_nil_r.
    + destruct (is_response_error e) eqn:E.
      * rewrite (handle_error e s E). cbn. now rewrite app_nil_r.
      * rewrite (handle_other e s D E). cbn. now rewrite !app_nil_r.
  - unfold run, channel_open, sendAudio, reader_onload, dc_send, bind, get.
    destruct (dcRef s) as [[l []]|] eqn:Hd; destruct loaded; cbn;
      rewrite ?Hd; cbn; rewrite ?app_nil_r; split; reflexivity.
  - unfold run, channel_open, sendTextMessage, dc_send, bind, get.
    destruct (dcRef s) as [[l []]|]; cbn; rewrite ?app_nil_r; split; reflexivity.
Qed.

(** ** Recording sessions *)

(** The recorder made by [startRecording] carries the chunks of the state it
    was called in, and the chunk cell is reset. *)
Lemma startRecording_captures_render
    (stream : MediaStream) (pc : RTCPeerConnection) (s : State) :
  pcRef s = Some pc ->
  mediaRecorder (run (startRecording (Some stream)) s)
  = Some {| recorder_stream := stream; recorder_state := recording;
            onstop_audioChunks := audioChunks s |}
  /\ audioChunks (run (startRecording (Some stream)) s) = [].
Proof.
  intros H. unfold run, startRecording, bind, get. rewrite H. split; reflexivity.
Qed.

(** Stopping a live recorder on the open channel: the final chunk goes to the
    chunk cell, and the blob sent is built from the captured chunks. *)
Lemma stopRecording_sends_captured
    (data : Blob) (r : MediaRecorder) (s : State) :
  mediaRecorder s = Some r ->
  recorder_state r = recording ->
  channel_open s = true ->
  trace (run (stopRecording data true) s)
  = (trace s ++ [ConsoleLog "Recording stopped."])
    ++ [DcSend (OutAudio (arrayBufferToBase64 (blob_bytes (onstop_audioBlob r))))]
  /\ audioChunks (run (stopRecording data true) s)
     = audioChunks s ++ (if (0 <? blob_size data)%nat then [data] else [])
  /\ isRecording (run (stopRecording data true) s) = false.
Proof.
  intros Hm Hr Ho. unfold channel_open in Ho.
  destruct (dcRef s) as [[l []]|] eqn:Hd; try discriminate Ho.
  unfold run, stopRecording, ondataavailable, onstop, sendAudio, reader_onload,
    dc_send, bind, get.
  rewrite Hm. destruct (0 <? blob_size data)%nat;
    cbn; rewrite Hr; cbn; repeat (rewrite Hd; cbn);
    rewrite ?app_nil_r; repeat split.
Qed.

(** C2, on the code.  A session on the open channel starts with an empty
    chunk cell; the recorder delivers the chunk [sample_chunk] when stopped.
    The recording flag is cleared and one blob is sent, but the blob is built
    from the chunks captured when the session started, which are none: the
    data sent is the empty base64 text and not that of the chunk buffered
    during the session. *)
Theorem stop_sends_chunks_of_earlier_render :
  audioChunks connected_state = []
  /\ isRecording recording_state = true
  /\ isRecording (run (stopRecording sample_chunk true) recording_state) = false
  /\ audioChunks (run (stopRecording sample_chunk true) recording_state)
     = [sample_chunk]
  /\ option_map onstop_audioBlob (mediaRecorder recording_state)
     = Some (new_Blob [] "audio/webm")
  /\ trace (run (stopRecording sample_chunk true) recording_state)
     = trace recording_state
       ++ [ConsoleLog "Recording stopped."; DcSend (OutAudio "")]
  /\ arrayBufferToBase64 (blob_bytes (new_Blob [sample_chunk] "audio/webm"))
     = "TWFu"
  /\ userMessages (run (stopRecording sample_chunk true) recording_state)
     = ["You: Audio sent"].
Proof. repeat split. Qed.

(** The next session sends what the session before it buffered. *)
Lemma second_session_sends_first_chunk :
  let s2 := run (stopRecording sample_chunk true) recording_state in
  let s3 := run (startRecording (Some sample_stream)) s2 in
  let s4 := run (stopRecording {| blob_bytes := [1; 2]%N; blob_type := "audio/webm" |} true) s3 in
  trace s4 = trace s3 ++ [ConsoleLog "Recording stopped."; DcSend (OutAudio "TWFu")].
Proof. reflexivity. Qed.

(** * Further properties *)

(** ** Base64 *)

Ltac Zify.zify_post_hook ::= Z.to_euclidean_division_equations.

Lemma sextet_in (n : N) : (n < 64)%N -> In n sextets.
Proof.
  intros H. unfold sextets. apply in_map_iff. exists (N.to_nat n).
  split; [apply N2Nat.id|]. apply in_seq. lia.
Qed.

(** A sextet is read back from its symbol, which is not the padding. *)
Lemma b64_char_sound (n : N) :
  (n < 64)%N -> b64_index (b64_char n) = n /\ is_pad (b64_char n) = false.
Proof.
  intros H. apply sextet_in in H.
  assert (A : forallb (fun n => (b64_index (b64_char n) =? n)%N
                                && negb (is_pad (b64_char n))) sextets = true)
    by (vm_compute; reflexivity).
  rewrite forallb_forall in A. specialize (A n H).
  apply andb_true_iff in A. destruct A as [A B].
  apply N.eqb_eq in A. apply negb_true_iff in B. auto.
Qed.

Lemma code_bound (a : ascii) : (N_of_ascii a < 256)%N.
Proof. apply N_ascii_bounded. Qed.

Lemma atob_btoa (binary : string) : atob (btoa binary) = binary.
Proof.
  assert (G : forall n t, (String.length t <= n)%nat -> atob (btoa t) = t).
  { induction n as [|n IH]; intros t Hl.
    - destruct t; [reflexivity|cbn in Hl; lia].
    - destruct t as [|a [|b [|c rest]]]; [reflexivity| | |].
      + pose proof (code_bound a).
        cbn [btoa atob].
        destruct (b64_char_sound (N_of_ascii a / 4)) as [-> _]; [lia|].
        destruct (b64_char_sound ((N_of_ascii a mod 4) * 16)) as [-> _]; [lia|].
        cbn [is_pad Ascii.eqb Bool.eqb].
        replace (N_of_ascii a / 4 * 4 + N_of_ascii a mod 4 * 16 / 16)%N
          with (N_of_ascii a) by lia.
        now rewrite ascii_N_embedding.
      + pose proof (code_bound a). pose proof (code_bound b).
        cbn [btoa atob].
        destruct (b64_char_sound (N_of_ascii a / 4)) as [-> _]; [lia|].
        destruct (b64_char_sound ((N_of_ascii a mod 4) * 16 + N_of_ascii b / 16))
          as [-> _]; [lia|].
        destruct (b64_char_sound ((N_of_ascii b mod 16) * 4)) as [-> ->]; [lia|].
        cbn [is_pad Ascii.eqb Bool.eqb].
        replace (N_of_ascii a / 4 * 4
                 + (N_of_ascii a mod 4 * 16 + N_of_ascii b / 16) / 16)%N
          with (N_of_ascii a) by lia.
        replace ((N_of_ascii a mod 4 * 16 + N_of_ascii b / 16) mod 16 * 16
                 + N_of_ascii b mod 16 * 4 / 4)%N
          with (N_of_ascii b) by lia.
        now rewrite !ascii_N_embedding.
      + pose proof (code_bound a). pose proof (code_bound b).
        pose proof (code_bound c).
        cbn [btoa atob].
        destruct (b64_char_sound (N_of_ascii a / 4)) as [-> _]; [lia|].
        destruct (b64_char_sound ((N_of_ascii a mod 4) * 16 + N_of_ascii b / 16))
          as [-> _]; [lia|].
        destruct (b64_char_sound ((N_of_ascii b mod 16) * 4 + N_of_ascii c / 64))
          as [-> ->]; [lia|].
        destruct (b64_char_sound (N_of_ascii c mod 64)) as [-> ->]; [lia|].
        replace (N_of_ascii a / 4 * 4
                 + (N_of_ascii a mod 4 * 16 + N_of_ascii b / 16) / 16)%N
          with (N_of_ascii a) by lia.
        replace ((N_of_ascii a mod 4 * 16 + N_of_ascii b / 16) mod 16 * 16
                 + (N_of_ascii b mod 16 * 4 + N_of_ascii c / 64) / 4)%N
          with (N_of_ascii b) by lia.
        replace ((N_of_ascii b mod 16 * 4 + N_of_ascii c / 64) mod 4 * 64
                 + N_of_ascii c mod 64)%N
          with (N_of_ascii c) by lia.
        rewrite !ascii_N_embedding. rewrite IH; [reflexivity|].
        cbn in Hl. lia. }
  apply (G (String.length binary)). lia.
Qed.

Lemma bytes_of_binary_of_bytes (bytes : list N) :
  Forall is_byte bytes -> bytes_of_binary (binary_of_bytes bytes) = bytes.
Proof.
  induction 1 as [|b bytes Hb _ IH]; [reflexivity|].
  cbn [binary_of_bytes bytes_of_binary]. rewrite IH. f_equal.
  unfold is_byte in Hb. rewrite N.mod_small by exact Hb.
  now apply N_ascii_embedding.
Qed.

Lemma decode_arrayBufferToBase64 (buffer : list N) :
  Forall is_byte buffer ->
  bytes_of_binary (atob (arrayBufferToBase64 buffer)) = buffer.
Proof.
  intros H. unfold arrayBufferToBase64.
  rewrite atob_btoa. now apply bytes_of_binary_of_bytes.
Qed.

(** X1.  [arrayBufferToBase64] loses nothing: two buffers with the same
    base64 text are the same buffer. *)
Theorem arrayBufferToBase64_injective (buffer1 buffer2 : list N) :
  Forall is_byte buffer1 ->
  Forall is_byte buffer2 ->
  arrayBufferToBase64 buffer1 = arrayBufferToBase64 buffer2 ->
  buffer1 = buffer2.
Proof.
  intros H1 H2 E.
  rewrite <- (decode_arrayBufferToBase64 buffer1 H1).
  rewrite <- (decode_arrayBufferToBase64 buffer2 H2).
  now rewrite E.
Qed.

Lemma arrayBufferToBase64_injective_witness :
  Forall is_byte [77; 97]%N
  /\ Forall is_byte [70 + 7; 100 - 3]%N
  /\ arrayBufferToBase64 [77; 97]%N = arrayBufferToBase64 [70 + 7; 100 - 3]%N
  /\ [77; 97]%N = [70 + 7; 100 - 3]%N.
Proof.
  split; [repeat constructor|].
  split; [repeat constructor|].
  split; [reflexivity|].
  apply (arrayBufferToBase64_injective [77; 97]%N [70 + 7; 100 - 3]%N).
  - repeat constructor.
  - repeat constructor.
  - reflexivity.
Defined.

Lemma length_btoa (binary : string) :
  String.length (btoa binary) = 4 * ((String.length binary + 2) / 3).
Proof.
  assert (G : forall n t, (String.length t <= n)%nat ->
                String.length (btoa t) = 4 * ((String.length t + 2) / 3)).
  { induction n as [|n IH]; intros t Hl.
    - destruct t; [reflexivity|cbn in Hl; lia].
    - destruct t as [|a [|b [|c rest]]]; try reflexivity.
      cbn [btoa String.length]. rewrite IH by (cbn in Hl; lia).
      replace (S (S (S (String.length rest))) + 2)
        with ((String.length rest + 2) + 1 * 3) by lia.
      rewrite Nat.div_add by lia. lia. }
  apply (G (String.length binary)). lia.
Qed.

Lemma length_binary_of_bytes (bytes : list N) :
  String.length (binary_of_bytes bytes) = List.length bytes.
Proof. induction bytes as [|b bytes IH]; cbn; congruence. Qed.

(** X2.  The base64 text of [n] bytes has [4 * ceil (n / 3)] symbols: it is
    empty exactly for the empty buffer and always a whole number of groups
    of four. *)
Theorem length_arrayBufferToBase64 (buffer : list N) :
  String.length (arrayBufferToBase64 buffer)
  = 4 * ((List.length buffer + 2) / 3).
Proof.
  unfold arrayBufferToBase64.
  now rewrite length_btoa, length_binary_of_bytes.
Qed.

(** ** Sending *)

(** X3.  [sendTextMessage] on an open channel hands over exactly one message
    with the text, appends the line ["You: " + text] and raises the
    processing flag.  On a channel that exists but is not open, [send] throws
    and the text is neither sent nor shown; without a channel nothing
    happens. *)
Theorem sendTextMessage_outcome (text : string) (s : State) :
  sendTextMessage text s
  = if channel_open s then
      Ok tt (set_isProcessing true
               (set_userMessages (userMessages s ++ [String.append "You: " text])
                  (set_trace (trace s ++ [DcSend (OutMessage text)]) s)))
    else match dcRef s with
         | Some _ => Throw InvalidStateError s
         | None => Ok tt s
         end.
Proof.
  unfold channel_open, sendTextMessage, dc_send, bind, get.
  destruct (dcRef s) as [[l []]|]; reflexivity.
Qed.

(** X4.  [sendAudio] without a channel reports on the console, clears the
    processing flag and sets the error cell; nothing is sent or shown.  With
    an open channel and a completed read it hands over one message with the
    base64 text of the blob and appends ["You: Audio sent"], leaving the
    processing flag as it was.  A failed read changes nothing, and on a
    channel that is not open [send] throws before the line is appended. *)
Theorem sendAudio_outcome (audioBlob : Blob) (loaded : bool) (s : State) :
  sendAudio audioBlob loaded s
  = match dcRef s with
    | None =>
        Ok tt (set_error (Some "Data channel not initialized.")
                 (set_isProcessing false
                    (set_trace
                       (trace s ++ [ConsoleError "Data channel not initialized."])
                       s)))
    | Some _ =>
        if negb loaded then Ok tt s
        else if channel_open s then
          Ok tt (set_userMessages (userMessages s ++ ["You: Audio sent"])
                   (set_trace
                      (trace s
                       ++ [DcSend (OutAudio
                                     (arrayBufferToBase64 (blob_bytes audioBlob)))])
                      s))
        else Throw InvalidStateError s
    end.
Proof.
  unfold channel_open, sendAudio, reader_onload, dc_send, bind, get.
  destruct (dcRef s) as [[l []]|] eqn:Hd; destruct loaded; cbn;
    rewrite ?Hd; reflexivity.
Qed.

(** ** Starting a recording *)

(** X5.  With a peer connection, [startRecording] asks for the microphone
    once.  When the stream is granted it stores a live recorder, empties the
    chunk cell and raises the recording and processing flags; when it is
    refused it sets the error cell to ["Failed to start recording."] and
    leaves the flags, the recorder and the chunks as they were. *)
Theorem startRecording_outcome
    (mic : option MediaStream) (pc : RTCPeerConnection) (s : State) :
  pcRef s = Some pc ->
  run (startRecording mic) s
  = match mic with
    | Some stream =>
        set_trace ((trace s ++ [GetUserMedia]) ++ [ConsoleLog "Recording started."])
          (set_isProcessing true
             (set_isRecording true
                (set_audioChunks []
                   (set_mediaRecorder
                      (Some {| recorder_stream := stream;
                               recorder_state := recording;
                               onstop_audioChunks := audioChunks s |}) s))))
    | None =>
        set_error (Some "Failed to start recording.")
          (set_trace ((trace s ++ [GetUserMedia])
                      ++ [ConsoleError "Error starting recording:"]) s)
    end.
Proof.
  intros H. unfold run, startRecording, bind, get. rewrite H.
  destruct mic; reflexivity.
Qed.

Lemma startRecording_outcome_witness :
  pcRef connected_state
  = Some {| pc_senders := [sample_stream];
            pc_localDescription := Some "v=0 offer";
            pc_remoteDescription := Some "v=0 answer" |}
  /\ run (startRecording None) connected_state
     = set_error (Some "Failed to start recording.")
         (set_trace ((trace connected_state ++ [GetUserMedia])
                     ++ [ConsoleError "Error starting recording:"])
            connected_state).
Proof.
  split; [reflexivity|].
  apply (startRecording_outcome None
           {| pc_senders := [sample_stream];
              pc_localDescription := Some "v=0 offer";
              pc_remoteDescription := Some "v=0 answer" |}
           connected_state).
  reflexivity.
Defined.

(** ** Outcomes of the initialization *)

Ltac init_cases env :=
  destruct env as [[r1|] [mic|] [off|] sl [r2|] sr];
  unfold init_succeeds, offer_ok, answer_ok, credential_ok, secret_value,
    defined, run, initRealTimeConnection, try_catch, bind, fetch,
    getUserMedia, emit, modify, throw, ret;
  cbn -[ok];
  try (destruct (ok r1); cbn -[ok]);
  try (destruct (body r1); cbn -[ok]);
  try (destruct sl; cbn -[ok]);
  try (destruct (ok r2); cbn -[ok]);
  try (destruct (body r2); cbn -[ok]);
  try (destruct sr; cbn -[ok]).

(** X6.  After mount the initialized flag is up exactly when every step of
    the negotiation went through, and the error cell holds the fixed
    sentence exactly when one did not: the page ends either initialized or
    with the error, never both and never neither. *)
Theorem init_outcome (env : InitEnv) :
  isInitialized (run (initRealTimeConnection env) initial_state)
  = init_succeeds env
  /\ error (run (initRealTimeConnection env) initial_state)
     = if init_succeeds env then None else Some init_failure_message.
Proof. init_cases env; split; reflexivity. Qed.


(** X7.  A failure after the token step leaves what was built before it: the
    peer connection and the audio element exist as soon as the token step
    passed, the data channel as soon as the microphone was granted too,
    whether or not the later steps succeed. *)
Theorem init_progress (env : InitEnv) :
  defined (pcRef (run (initRealTimeConnection env) initial_state))
  = credential_ok env
  /\ defined (audioElRef (run (initRealTimeConnection env) initial_state))
     = credential_ok env
  /\ defined (dcRef (run (initRealTimeConnection env) initial_state))
     = credential_ok env && defined (env_localStream env).
Proof. init_cases env; repeat split; reflexivity. Qed.

(** X8.  One run of the initialization asks the session route once, asks for
    the microphone once and only after the token step passed, and posts the
    offer once and only after the offer was made, with the header
    [Bearer] followed by the key it read ([undefined] when the value is
    missing).  No request is repeated. *)
Theorem init_requests (env : InitEnv) :
  filter (is_fetch_of "/api/session")
    (trace (run (initRealTimeConnection env) initial_state))
  = [Fetch "/api/session" None]
  /\ filter is_getUserMedia
       (trace (run (initRealTimeConnection env) initial_state))
     = (if credential_ok env then [GetUserMedia] else [])
  /\ filter (is_fetch_of realtime_url)
       (trace (run (initRealTimeConnection env) initial_state))
     = (if offer_ok env
        then [Fetch realtime_url (Some (bearer (secret_value env)))]
        else []).
Proof. init_cases env; repeat split; reflexivity. Qed.

(** ** The credential route *)

(** X9.  The route answers with a success status exactly when the provider
    answered with JSON, and its answer does not depend on the provider's
    status: a refusal of the provider reaches the page as a success. *)
Theorem POST_ignores_upstream_status
    (upstream : option (HttpResponse (option SessionData)))
    (status1 status2 : nat) (data : option SessionData) :
  ok (POST upstream)
  = match upstream with
    | Some response => defined (body response)
    | None => false
    end
  /\ POST (Some {| status := status1; body := data |})
     = POST (Some {| status := status2; body := data |}).
Proof.
  split; [destruct upstream as [[st [d|]]|]|]; reflexivity.
Qed.


(** ** Invariants of the mounted component *)

Lemma init_negotiated (env : InitEnv) :
  negotiated (run (initRealTimeConnection env) initial_state).
Proof.
  unfold negotiated. init_cases env; intros H; try discriminate H.
  split; [eexists; split; [reflexivity|]; split; discriminate|discriminate].
Qed.

Ltac solve_negotiated :=
  match goal with
  | H : negotiated ?s |- negotiated _ =>
      unfold negotiated in *; cbn; intros Hi;
      destruct (H Hi) as [(pc & Hpc & Hl & Hr) Hd]; split;
      [exists pc; auto | destruct (dcRef s); cbn; congruence]
  end.

Lemma perform_negotiated (a : Action) : preserves negotiated (perform a).
Proof. destruct a; cbn [perform]; preserve; solve_negotiated. Qed.

Lemma negotiated_invariant (s : State) : reachable s -> negotiated s.
Proof.
  induction 1 as [env|a s _ IH];
    [apply init_negotiated|apply (perform_negotiated a s IH)].
Qed.

(** X11.  In every state of the mounted component with the initialized flag
    up, the peer connection exists with its local and remote descriptions
    set, and the data channel exists. *)
Theorem initialized_is_negotiated (s : State) :
  reachable s ->
  isInitialized s = true ->
  (exists pc, pcRef s = Some pc
              /\ pc_localDescription pc <> None
              /\ pc_remoteDescription pc <> None)
  /\ dcRef s <> None.
Proof. intros H. exact (negotiated_invariant s H). Qed.

Lemma initialized_is_negotiated_witness :
  reachable connected_state
  /\ isInitialized connected_state = true
  /\ dcRef connected_state <> None.
Proof.
  assert (R : reachable connected_state).
  { apply (reach_step ChannelOpen), reach_mount. }
  split; [exact R|]. split; [reflexivity|].
  apply (initialized_is_negotiated connected_state R). reflexivity.
Defined.

Ltac solve_live :=
  match goal with
  | H : recorder_live ?s |- recorder_live _ =>
      unfold recorder_live in *; cbn; solve [auto | intros; discriminate]
  end.

Lemma perform_recorder_live (a : Action) : preserves recorder_live (perform a).
Proof.
  destruct a as [stream0| |JSON_parse data| | |mic|data loaded|txt];
    cbn [perform]; try solve [preserve; solve_live]; intros s H.
  - unfold recorder_live in *. unfold startRecording, bind, get.
    destruct (pcRef s); [|exact H].
    destruct mic; cbn; [intros _; eexists; split; reflexivity|exact H].
  - destruct s as [pc dc ael rs ini rec ai us mr ch pr sp tr er trc].
    unfold recorder_live, stopRecording, ondataavailable, onstop, sendAudio,
      reader_onload, dc_send, bind, get in *; cbn in *.
    destruct mr as [[st [] chunks]|]; [| |exact H]; cbn.
    + intros Hf; discriminate Hf.
    + destruct data as [[|b bs] ty]; cbn;
        destruct dc as [[l []]|]; cbn; destruct loaded; cbn;
        intros Hf; discriminate Hf.
Qed.

Lemma init_not_recording (env : InitEnv) :
  isRecording (run (initRealTimeConnection env) initial_state) = false.
Proof. init_cases env; reflexivity. Qed.

Lemma recorder_live_invariant (s : State) : reachable s -> recorder_live s.
Proof.
  induction 1 as [env|a s _ IH].
  - intros H. rewrite init_not_recording in H. discriminate H.
  - apply (perform_recorder_live a s IH).
Qed.

(** X12.  In every state of the mounted component with the recording flag
    up, the state holds a recorder and that recorder is recording. *)
Theorem recording_has_live_recorder (s : State) :
  reachable s ->
  isRecording s = true ->
  exists r, mediaRecorder s = Some r /\ recorder_state r = recording.
Proof. intros H. exact (recorder_live_invariant s H). Qed.

Lemma reachable_recording_state : reachable recording_state.
Proof.
  apply (reach_step (StartRecording (Some sample_stream))).
  apply (reach_step ChannelOpen), reach_mount.
Qed.

Lemma recording_has_live_recorder_witness :
  reachable recording_state
  /\ isRecording recording_state = true
  /\ exists r, mediaRecorder recording_state = Some r
               /\ recorder_state r = recording.
Proof.
  split; [exact reachable_recording_state|]. split; [reflexivity|].
  apply (recording_has_live_recorder recording_state
           reachable_recording_state).
  reflexivity.
Defined.

Ltac solve_shown :=
  match goal with
  | H : stream_shown ?s |- stream_shown _ =>
      unfold stream_shown in *; cbn; exact H
  end.

Lemma perform_stream_shown (a : Action) : preserves stream_shown (perform a).
Proof.
  destruct a as [stream0| |JSON_parse data| | |mic|data loaded|txt];
    cbn [perform]; try solve [preserve; solve_shown]; intros s H.
  unfold stream_shown, ontrack, bind, get, console_log, emit, modify in *; cbn.
  destruct (audioElRef s) as [el|] eqn:He; cbn; [reflexivity|].
  rewrite He. exact H.
Qed.

Lemma init_stream_shown (env : InitEnv) :
  stream_shown (run (initRealTimeConnection env) initial_state).
Proof. unfold stream_shown. init_cases env; reflexivity. Qed.

(** X13.  In every state of the mounted component the stream given to the
    [AudioStream] component is the one set on the audio element, and there
    is none before the element exists. *)
Theorem remote_stream_is_element_source (s : State) :
  reachable s ->
  remoteStream s = match audioElRef s with
                   | Some a => srcObject a
                   | None => None
                   end.
Proof.
  induction 1 as [env|a s _ IH];
    [apply init_stream_shown|apply (perform_stream_shown a s IH)].
Qed.

Lemma remote_stream_is_element_source_witness :
  reachable (run (ontrack (Some sample_stream)) connected_state)
  /\ remoteStream (run (ontrack (Some sample_stream)) connected_state)
     = Some sample_stream.
Proof.
  assert (R : reachable (run (ontrack (Some sample_stream)) connected_state)).
  { apply (reach_step (Track (Some sample_stream))).
    apply (reach_step ChannelOpen), reach_mount. }
  split; [exact R|].
  apply (remote_stream_is_element_source
           (run (ontrack (Some sample_stream)) connected_state) R).
Defined.

Lemma sent_messages_app (t u : list Effect) :
  sent_messages (t ++ u) = sent_messages t ++ sent_messages u.
Proof.
  induction t as [|e t IH]; [reflexivity|].
  destruct e; cbn; rewrite IH; reflexivity.
Qed.

Ltac solve_mirror :=
  match goal with
  | H : transcript_mirrors_channel ?s |- transcript_mirrors_channel _ =>
      unfold transcript_mirrors_channel in *; cbn;
      rewrite ?sent_messages_app; cbn; rewrite ?app_nil_r; exact H
  end.

Lemma perform_mirror (a : Action) :
  preserves transcript_mirrors_channel (perform a).
Proof.
  destruct a as [stream0| |JSON_parse data| | |mic|data loaded|txt];
    cbn [perform]; try solve [preserve; solve_mirror]; intros s H;
    destruct s as [pc dc ael rs ini rec ai us mr ch pr sp tr er trc];
    unfold transcript_mirrors_channel in *; cbn in H; subst us.
  - unfold stopRecording, ondataavailable, onstop, sendAudio, reader_onload,
      dc_send, bind, get; cbn.
    destruct mr as [[st [] chunks]|]; cbn;
      [ |destruct data as [[|b bs] ty]; cbn;
         destruct dc as [[l []]|]; cbn; destruct loaded; cbn| ];
      rewrite ?sent_messages_app, ?map_app; cbn; rewrite ?app_nil_r;
      reflexivity.
  - unfold sendTextMessage, dc_send, bind, get; cbn.
    destruct dc as [[l []]|]; cbn;
      rewrite ?sent_messages_app, ?map_app; cbn; rewrite ?app_nil_r;
      reflexivity.
Qed.

Lemma init_mirror (env : InitEnv) :
  transcript_mirrors_channel (run (initRealTimeConnection env) initial_state).
Proof. unfold transcript_mirrors_channel. init_cases env; reflexivity. Qed.

(** X14.  In every state of the mounted component the user sequence is, line
    for line and in order, the list of messages handed to the data channel:
    ["You: " + text] for a text and ["You: Audio sent"] for an audio message.
    No line is shown for a message that was not sent and no message is sent
    without its line. *)
Theorem user_transcript_mirrors_channel (s : State) :
  reachable s ->
  userMessages s = map user_line (sent_messages (trace s)).
Proof.
  induction 1 as [env|a s _ IH];
    [apply init_mirror|apply (perform_mirror a s IH)].
Qed.

Lemma user_transcript_mirrors_channel_witness :
  reachable awaiting_state
  /\ userMessages awaiting_state = ["You: hello"].
Proof.
  assert (R : reachable awaiting_state).
  { apply (reach_step (SendText "hello")).
    apply (reach_step ChannelOpen), reach_mount. }
  split; [exact R|].
  apply (user_transcript_mirrors_channel awaiting_state R).
Defined.

(** ** What the handlers never do *)

Lemma perform_keeps_connection
    (i0 : bool) (pc0 : option RTCPeerConnection) (a : Action) :
  preserves (fun s => isInitialized s = i0 /\ pcRef s = pc0) (perform a).
Proof.
  destruct a; cbn [perform]; preserve;
    match goal with H : _ /\ _ |- _ => cbn; exact H end.
Qed.

(** X15.  After mount no callback and no user action changes the initialized
    flag or the peer connection: a page that failed to initialize stays
    uninitialized, and a connection is neither replaced nor dropped. *)
Theorem connection_is_settled_at_mount (acts : list Action) (s : State) :
  isInitialized (perform_all acts s) = isInitialized s
  /\ pcRef (perform_all acts s) = pcRef s.
Proof.
  revert s; induction acts as [|a acts IH]; intros s; [split; reflexivity|].
  cbn [perform_all fold_left]. fold (perform_all acts (run (perform a) s)).
  destruct (IH (run (perform a) s)) as [-> ->].
  exact (perform_keeps_connection (isInitialized s) (pcRef s) a s
           (conj eq_refl eq_refl)).
Qed.

Lemma perform_keeps_error (a : Action) :
  preserves (fun s => error s <> None) (perform a).
Proof.
  destruct a; cbn [perform]; preserve;
    match goal with H : error _ <> None |- _ => cbn; solve [exact H | discriminate] end.
Qed.

(** X16.  An error, once shown, is never cleared: after any sequence of
    callbacks and user actions the error cell still holds a message. *)
Theorem error_is_never_cleared (acts : list Action) (s : State) :
  error s <> None ->
  error (perform_all acts s) <> None.
Proof.
  revert s; induction acts as [|a acts IH]; intros s H; [exact H|].
  apply IH, (perform_keeps_error a s H).
Qed.

Lemma error_is_never_cleared_witness :
  error (run (initRealTimeConnection env_token_500) initial_state) <> None
  /\ error (perform_all [SendText "hello"; Message (fun _ => Some done_hello) "{}"]
              (run (initRealTimeConnection env_token_500) initial_state))
     <> None.
Proof.
  assert (E : error (run (initRealTimeConnection env_token_500) initial_state)
              <> None) by discriminate.
  split; [exact E|].
  apply (error_is_never_cleared
           [SendText "hello"; Message (fun _ => Some done_hello) "{}"]
           (run (initRealTimeConnection env_token_500) initial_state) E).
Defined.

(** X17.  From mount on, whatever the platform answers and whatever the user
    does, each transcript sequence only ever gains entries at its end: the
    sequences of any earlier state are prefixes of those of any later
    state. *)
Theorem handlers_only_append (env : InitEnv) (acts : list Action) (s : State) :
  (exists k, aiMessages (perform_all acts (run (initRealTimeConnection env) s))
             = aiMessages s ++ k)
  /\ (exists k, userMessages (perform_all acts (run (initRealTimeConnection env) s))
                = userMessages s ++ k).
Proof.
  pose proof (init_extends (aiMessages s) (userMessages s) env s
                (extends_refl s)) as H0.
  fold (run (initRealTimeConnection env) s) in H0.
  pose proof (perform_all_extends acts (run (initRealTimeConnection env) s))
    as [[k1 H1] [k2 H2]].
  destruct H0 as [[j1 J1] [j2 J2]].
  split.
  - exists (j1 ++ k1). rewrite H1, J1. now rewrite app_assoc.
  - exists (j2 ++ k2). rewrite H2, J2. now rewrite app_assoc.
Qed.

(** ** The listener and the dispatcher *)

Lemma last_cons_default {A} (l : list A) (a d : A) :
  last (a :: l) d = last l a.
Proof.
  revert a d; induction l as [|b l IH]; intros a d; [reflexivity|].
  change (last (a :: b :: l) d) with (last (b :: l) d).
  rewrite (IH b d). symmetry. apply (IH b a).
Qed.

Lemma aiTranscript_append_lines (ts : list string) (s : State) :
  aiTranscript (append_lines ts s) = last (map Some ts) (aiTranscript s).
Proof.
  revert s; induction ts as [|t ts IH]; intros s; [reflexivity|].
  change (append_lines (t :: ts) s) with (append_lines ts (append_line t s)).
  rewrite IH. cbn [map]. rewrite last_cons_default. reflexivity.
Qed.

(** X18.  The latest AI utterance after an event is the last line a
    [response.done] event appended; an event that appends no line, and any
    event of another type, the error line of [response.error] included,
    leaves it as it was. *)
Theorem latest_utterance (e : RealtimeEvent) (s : State) :
  aiTranscript (run (handleRealtimeEvent e) s)
  = if is_response_done e
    then last (map Some (event_texts e)) (aiTranscript s)
    else aiTranscript s.
Proof.
  unfold run. destruct (is_response_done e) eqn:D.
  - rewrite (handle_done e s D). unfold event_texts.
    destruct (event_output e); cbn; [apply aiTranscript_append_lines|reflexivity].
  - destruct (is_response_error e) eqn:E.
    + rewrite (handle_error e s E). reflexivity.
    + rewrite (handle_other e s D E). reflexivity.
Qed.

Lemma handle_appends (e : RealtimeEvent) (s : State) :
  aiMessages (run (handleRealtimeEvent e) s)
  = aiMessages s ++ ai_appended (OpHandle e)
  /\ userMessages (run (handleRealtimeEvent e) s) = userMessages s.
Proof.
  unfold run. cbn [ai_appended]. destruct (is_response_done e) eqn:D.
  - rewrite (handle_done e s D). unfold event_texts.
    destruct (event_output e); cbn.
    + now rewrite aiMessages_append_lines, userMessages_append_lines.
    + now rewrite app_nil_r.
  - destruct (is_response_error e) eqn:E.
    + rewrite (handle_error e s E). split; reflexivity.
    + rewrite (handle_other e s D E). cbn. now rewrite app_nil_r.
Qed.

(** X19.  For any sequence of inbound events, of whatever types, the AI
    sequence afterwards is the earlier one followed by what each event
    appends, in arrival order: the lines of a [response.done], the one error
    line of a [response.error], nothing for any other type.  The user
    sequence is untouched. *)
Theorem dispatch_all_appends (events : list RealtimeEvent) (s : State) :
  aiMessages (dispatch_all events s)
  = aiMessages s ++ flat_map (fun e => ai_appended (OpHandle e)) events
  /\ userMessages (dispatch_all events s) = userMessages s.
Proof.
  revert s; induction events as [|e events IH]; intros s.
  - cbn. now rewrite app_nil_r.
  - cbn [dispatch_all fold_left flat_map].
    fold (dispatch_all events (run (handleRealtimeEvent e) s)).
    destruct (IH (run (handleRealtimeEvent e) s)) as [-> ->].
    destruct (handle_appends e s) as [-> ->].
    now rewrite app_assoc.
Qed.

Lemma handle_returns (e : RealtimeEvent) (s : State) :
  handleRealtimeEvent e s = Ok tt (run (handleRealtimeEvent e) s).
Proof.
  unfold run. destruct (is_response_done e) eqn:D.
  - rewrite (handle_done e s D). reflexivity.
  - destruct (is_response_error e) eqn:E.
    + rewrite (handle_error e s E). reflexivity.
    + rewrite (handle_other e s D E). reflexivity.
Qed.

Lemma handle_frame (e : RealtimeEvent) :
  forall (u0 : list string) (e0 : option string) (d0 : option RTCDataChannel)
         (m0 : option MediaRecorder) (c0 : list Blob) (r0 : bool),
    preserves (fun s => userMessages s = u0 /\ error s = e0 /\ dcRef s = d0
                        /\ mediaRecorder s = m0 /\ audioChunks s = c0
                        /\ isRecording s = r0)
      (handleRealtimeEvent e).
Proof.
  intros. preserve; match goal with H : _ /\ _ |- _ => cbn; exact H end.
Qed.

(** X20.  The message listener never throws and never fails the session:
    whatever arrives and whatever the parser makes of it, the listener
    returns, and the error cell, the user sequence, the data channel, the
    recorder, the buffered chunks and the recording flag are as before. *)
Theorem onmessage_is_contained
    (JSON_parse : string -> option RealtimeEvent) (data : string) (s : State) :
  onmessage JSON_parse data s = Ok tt (run (onmessage JSON_parse data) s)
  /\ error (run (onmessage JSON_parse data) s) = error s
  /\ userMessages (run (onmessage JSON_parse data) s) = userMessages s
  /\ dcRef (run (onmessage JSON_parse data) s) = dcRef s
  /\ mediaRecorder (run (onmessage JSON_parse data) s) = mediaRecorder s
  /\ audioChunks (run (onmessage JSON_parse data) s) = audioChunks s
  /\ isRecording (run (onmessage JSON_parse data) s) = isRecording s.
Proof.
  unfold run, onmessage, try_catch, bind, throw, ret.
  destruct (JSON_parse data) as [e|].
  - rewrite (handle_returns e s). cbn [state_of].
    split; [reflexivity|].
    pose proof (handle_frame e (userMessages s) (error s) (dcRef s)
                  (mediaRecorder s) (audioChunks s) (isRecording s) s) as F.
    cbv beta in F. fold (run (handleRealtimeEvent e) s) in F.
    destruct F as (F1 & F2 & F3 & F4 & F5 & F6); repeat split; auto.
  - repeat split.
Qed.

(** ** The controls and the guards *)

(** X21.  When the Start button is enabled, [startRecording] is not turned
    away: with the microphone granted the recording starts, after which
    Start and the text input are disabled and Stop is enabled. *)
Theorem enabled_start_records (stream : MediaStream) (s : State) :
  reachable s ->
  start_disabled s = false ->
  isRecording (run (startRecording (Some stream)) s) = true
  /\ audioChunks (run (startRecording (Some stream)) s) = []
  /\ start_disabled (run (startRecording (Some stream)) s) = true
  /\ stop_disabled (run (startRecording (Some stream)) s) = false
  /\ text_disabled (run (startRecording (Some stream)) s) = true.
Proof.
  intros R H. unfold start_disabled in H.
  apply orb_false_iff in H. destruct H as [_ Hi].
  apply negb_false_iff in Hi.
  destruct (negotiated_invariant s R Hi) as [(pc & Hpc & _) _].
  unfold run, startRecording, bind, get. rewrite Hpc. cbn.
  unfold start_disabled, stop_disabled, text_disabled. cbn.
  rewrite Hi. repeat split; reflexivity.
Qed.

Lemma enabled_start_records_witness :
  reachable connected_state
  /\ start_disabled connected_state = false
  /\ isRecording (run (startRecording (Some sample_stream)) connected_state)
     = true.
Proof.
  assert (R : reachable connected_state).
  { apply (reach_step ChannelOpen), reach_mount. }
  split; [exact R|]. split; [reflexivity|].
  apply (enabled_start_records sample_stream connected_state R). reflexivity.
Defined.

(** X22.  When the Stop button is enabled, [stopRecording] finds a live
    recorder: it stops it, clears the recording flag (Stop is disabled
    again) and the chunk the recorder delivers is buffered when it is not
    empty. *)
Theorem enabled_stop_stops (data : Blob) (loaded : bool) (s : State) :
  reachable s ->
  stop_disabled s = false ->
  isRecording (run (stopRecording data loaded) s) = false
  /\ stop_disabled (run (stopRecording data loaded) s) = true
  /\ (exists r, mediaRecorder (run (stopRecording data loaded) s) = Some r
                /\ recorder_state r = inactive)
  /\ audioChunks (run (stopRecording data loaded) s)
     = audioChunks s ++ (if (0 <? blob_size data)%nat then [data] else []).
Proof.
  intros R H. unfold stop_disabled in H. apply negb_false_iff in H.
  destruct (recorder_live_invariant s R H) as (r & Hm & Hr).
  destruct s as [pc dc ael rs ini rec ai us mr ch pr sp tr er trc].
  destruct r as [st rst chunks]. cbn in *. subst mr rst rec.
  unfold run, stop_disabled, stopRecording, ondataavailable, onstop, sendAudio,
    reader_onload, dc_send, bind, get; cbn.
  destruct data as [[|b bs] ty]; cbn;
    destruct dc as [[l []]|]; cbn; destruct loaded; cbn;
    rewrite ?app_nil_r; repeat split; eexists; split; reflexivity.
Qed.

Lemma enabled_stop_stops_witness :
  reachable recording_state
  /\ stop_disabled recording_state = false
  /\ isRecording (run (stopRecording sample_chunk true) recording_state)
     = false.
Proof.
  split; [exact reachable_recording_state|]. split; [reflexivity|].
  apply (enabled_stop_stops sample_chunk true recording_state
           reachable_recording_state).
  reflexivity.
Defined.

(** X23.  When the text input is enabled a data channel exists, so a
    submitted text is never dropped by the missing-channel test: either the
    channel is open, the text is sent and shown and the input is disabled
    until an answer arrives, or the channel is not open yet, [send] throws
    and the state is as before. *)
Theorem enabled_text_reaches_channel (text : string) (s : State) :
  reachable s ->
  text_disabled s = false ->
  dcRef s <> None
  /\ match sendTextMessage text s with
     | Ok _ s' =>
         channel_open s = true
         /\ text_disabled s' = true
         /\ userMessages s' = userMessages s ++ [String.append "You: " text]
         /\ trace s' = trace s ++ [DcSend (OutMessage text)]
     | Throw e s' =>
         channel_open s = false /\ e = InvalidStateError /\ s' = s
     end.
Proof.
  intros R H. unfold text_disabled in H.
  apply orb_false_iff in H. destruct H as [Hi _].
  apply negb_false_iff in Hi.
  destruct (negotiated_invariant s R Hi) as [_ Hd].
  split; [exact Hd|].
  unfold channel_open, text_disabled, sendTextMessage, dc_send, bind, get.
  destruct (dcRef s) as [[l []]|]; [| | | |contradiction]; cbn;
    repeat split; auto using orb_true_r.
Qed.

Lemma enabled_text_reaches_channel_witness :
  reachable connected_state
  /\ text_disabled connected_state = false
  /\ dcRef connected_state <> None.
Proof.
  assert (R : reachable connected_state).
  { apply (reach_step ChannelOpen), reach_mount. }
  split; [exact R|]. split; [reflexivity|].
  apply (enabled_text_reaches_channel "hello" connected_state R). reflexivity.
Defined.

(** ** The [AudioStream] component *)

Lemma on_loadedmetadata_shape (ok : bool) (i : nat) (c : AudioStreamState)
    (node : AudioNode) :
  audioRef c = Some node ->
  mounted (on_loadedmetadata ok i c) = mounted c
  /\ play_calls (on_loadedmetadata ok i c)
     = play_calls c + (if nth i (mounted c) false then 1 else 0)
  /\ exists node', audioRef (on_loadedmetadata ok i c) = Some node'
                   /\ node_listeners node' = node_listeners node
                   /\ node_srcObject node' = node_srcObject node.
Proof.
  intros H. unfold on_loadedmetadata. rewrite H.
  destruct (nth i (mounted c) false); cbn.
  - repeat split; [lia|]. eexists; repeat split.
  - rewrite H. repeat split; [lia|]. eexists; repeat split.
Qed.

Lemma fold_loadedmetadata (ok : bool) (ls : list nat) :
  forall (c : AudioStreamState) (node : AudioNode),
    audioRef c = Some node ->
    let c' := fold_left (fun st i => on_loadedmetadata ok i st) ls c in
    mounted c' = mounted c
    /\ play_calls c' = play_calls c + List.length (live_listeners (mounted c) ls)
    /\ exists node', audioRef c' = Some node'
                     /\ node_listeners node' = node_listeners node
                     /\ node_srcObject node' = node_srcObject node.
Proof.
  induction ls as [|i ls IH]; intros c node H; cbn [fold_left].
  - cbn. repeat split; [lia|]. exists node; auto.
  - destruct (on_loadedmetadata_shape ok i c node H)
      as (Hm & Hp & node1 & Hn & Hl & Hs).
    destruct (IH _ node1 Hn) as (Hm' & Hp' & node2 & Hn' & Hl' & Hs').
    cbv zeta. rewrite Hm', Hp', Hm, Hp.
    repeat split.
    + unfold live_listeners. cbn [filter].
      destruct (nth i (mounted c) false); cbn [List.length]; lia.
    + exists node2. repeat split; congruence.
Qed.

Lemma nth_flags (n i : nat) :
  i <= n -> nth i (repeat false n ++ [true]) false = (i =? n)%nat.
Proof.
  intros H. destruct (Nat.eqb_spec i n) as [->|Hne].
  - rewrite app_nth2 by (rewrite repeat_length; lia).
    rewrite repeat_length, Nat.sub_diag. reflexivity.
  - rewrite app_nth1 by (rewrite repeat_length; lia).
    apply nth_repeat.
Qed.

Lemma live_listeners_count (n : nat) (ls : list nat) :
  Forall (fun i => i <= n) ls ->
  List.length (live_listeners (repeat false n ++ [true]) ls)
  = count_occ Nat.eq_dec ls n.
Proof.
  induction 1 as [|i ls Hi _ IH]; [reflexivity|].
  unfold live_listeners in *. cbn [filter count_occ].
  rewrite (nth_flags n i Hi).
  destruct (Nat.eqb_spec i n) as [->|Hne].
  - destruct (Nat.eq_dec n n); [|contradiction]. cbn. now rewrite IH.
  - destruct (Nat.eq_dec i n); [contradiction|]. exact IH.
Qed.

Lemma clear_last_flag (n : nat) (b : bool) :
  clear_flag n (repeat false n ++ [b]) = repeat false (S n).
Proof. induction n as [|n IH]; cbn; [reflexivity|now rewrite IH]. Qed.

Lemma repeat_snoc (n : nat) : repeat false (S n) = repeat false n ++ [false].
Proof. induction n as [|n IH]; cbn; [reflexivity|]. f_equal. exact IH. Qed.

Lemma count_occ_above (n : nat) (ls : list nat) :
  Forall (fun i => i <= n) ls -> count_occ Nat.eq_dec ls (S n) = 0.
Proof.
  induction 1 as [|i ls Hi _ IH]; [reflexivity|].
  cbn. destruct (Nat.eq_dec i (S n)); [lia|exact IH].
Qed.

Lemma mount_one_live_run (stream : option MediaStream) :
  one_live_run (audioStream_mount stream).
Proof.
  unfold one_live_run, audioStream_mount, audioStream_effect. cbn.
  destruct stream; exists 0; eexists; cbn;
    (split; [reflexivity|]); (split; [reflexivity|]);
    (split; [repeat constructor|reflexivity]).
Qed.

Lemma update_one_live_run (stream : option MediaStream) (c : AudioStreamState) :
  one_live_run c -> one_live_run (audioStream_update stream c).
Proof.
  intros (n & node & Hm & Hr & Hl & Hc).
  unfold audioStream_update, audioStream_cleanup, audioStream_effect.
  cbn. rewrite Hr, Hm. cbn.
  rewrite length_app, repeat_length. cbn [List.length].
  replace (n + 1 - 1) with n by lia.
  rewrite clear_last_flag, repeat_length.
  assert (Hl' : Forall (fun i => i <= S n) (node_listeners node)).
  { eapply Forall_impl; [|exact Hl]. cbn. intros; lia. }
  destruct stream as [st|]; exists (S n); eexists; cbn;
    (split; [reflexivity|]); (split; [reflexivity|]).
  - split.
    + apply Forall_app. split; [exact Hl'|repeat constructor].
    + cbn [node_listeners node_srcObject defined].
      rewrite count_occ_app, (count_occ_above n _ Hl).
      rewrite count_occ_cons_eq by reflexivity. reflexivity.
  - split; [exact Hl'|]. cbn [node_listeners node_srcObject defined].
    apply (count_occ_above n _ Hl).
Qed.

Lemma fire_one_live_run (ok : bool) (c : AudioStreamState) :
  one_live_run c -> one_live_run (fire_loadedmetadata ok c).
Proof.
  intros (n & node & Hm & Hr & Hl & Hc).
  unfold fire_loadedmetadata. rewrite Hr.
  destruct (fold_loadedmetadata ok (node_listeners node) c node Hr)
    as (Hm' & _ & node' & Hn & Hl' & Hs).
  exists n, node'. rewrite Hm', Hl', Hs. auto.
Qed.

Lemma life_one_live_run (stream : option MediaStream) (events : list StreamEvent) :
  one_live_run (audioStream_life stream events).
Proof.
  unfold audioStream_life.
  assert (G : forall c, one_live_run c -> one_live_run (fold_left stream_step events c)).
  { induction events as [|ev events IH]; intros c H; [exact H|].
    apply IH. destruct ev; [apply update_one_live_run|apply fire_one_live_run]; exact H. }
  apply G, mount_one_live_run.
Qed.

(** X24.  However often the stream changed, one [loadedmetadata] event
    calls [play()] exactly once when the element has a stream and not at all
    when it has none: the listeners left behind by earlier runs of the effect
    never start playback. *)
Theorem loadedmetadata_plays_once
    (stream : option MediaStream) (events : list StreamEvent) (play_ok : bool) :
  exists node,
    audioRef (audioStream_life stream events) = Some node
    /\ play_calls (fire_loadedmetadata play_ok (audioStream_life stream events))
       = play_calls (audioStream_life stream events)
         + (if defined (node_srcObject node) then 1 else 0).
Proof.
  destruct (life_one_live_run stream events) as (n & node & Hm & Hr & Hl & Hc).
  exists node. split; [exact Hr|].
  unfold fire_loadedmetadata. rewrite Hr.
  destruct (fold_loadedmetadata play_ok (node_listeners node) _ node Hr)
    as (_ & Hp & _).
  rewrite Hp, Hm, (live_listeners_count n _ Hl), Hc. reflexivity.
Qed.

(** X25.  After the stream changed, the element carries the new stream (none
    when the new value is null) and is paused. *)
Theorem stream_change_resets
    (stream0 stream : option MediaStream) (events : list StreamEvent) :
  exists node,
    audioRef (audioStream_life stream0 (events ++ [StreamChanged stream]))
    = Some node
    /\ node_srcObject node = stream
    /\ node_paused node = true.
Proof.
  unfold audioStream_life. rewrite fold_left_app. cbn [fold_left stream_step].
  fold (audioStream_life stream0 events).
  destruct (life_one_live_run stream0 events) as (n & node & Hm & Hr & Hl & Hc).
  unfold audioStream_update, audioStream_cleanup, audioStream_effect. cbn.
  rewrite Hr. destruct stream; eexists; repeat split.
Qed.

Lemma fold_unmounted (ok : bool) (ls : list nat) (c : AudioStreamState) :
  (forall i, nth i (mounted c) false = false) ->
  fold_left (fun st i => on_loadedmetadata ok i st) ls c = c.
Proof.
  intros H. induction ls as [|i ls IH]; [reflexivity|].
  cbn [fold_left]. unfold on_loadedmetadata at 2. rewrite (H i). exact IH.
Qed.

(** X26.  After the cleanup of the latest run the element has no source and
    is paused, and a [loadedmetadata] event that still arrives changes
    nothing: no listener plays. *)
Theorem cleanup_silences
    (stream : option MediaStream) (events : list StreamEvent) (play_ok : bool) :
  let c := audioStream_life stream events in
  let cleaned := audioStream_cleanup (List.length (mounted c) - 1) c in
  fire_loadedmetadata play_ok cleaned = cleaned
  /\ exists node, audioRef cleaned = Some node
                  /\ node_srcObject node = None /\ node_paused node = true.
Proof.
  cbv zeta.
  destruct (life_one_live_run stream events) as (n & node & Hm & Hr & Hl & Hc).
  unfold audioStream_cleanup. rewrite Hr, Hm.
  rewrite length_app, repeat_length. cbn [List.length].
  replace (n + 1 - 1) with n by lia. rewrite clear_last_flag.
  split; [|eexists; repeat split].
  unfold fire_loadedmetadata. cbn [audioRef].
  apply fold_unmounted. intros i. cbn [mounted]. apply nth_repeat.
Qed.
